(** * django-formwizard: the step-sequencing core of [formwizard/forms.py]
    and the request dispatch of [formwizard/views.py].

    The Python classes are embedded shallowly: a wizard is a record holding
    what [FormWizard.__init__] stores on [self]; methods that read or write
    the storage backend run in a small state-and-exception monad [Py];
    methods that only consult the configured step list return [Res]. *)

From stdpp Require Import gmap strings list fin_maps pretty.
From Stdlib Require Import ZArith Lia.

#[local] Set Warnings "-clear-no-such-hyp".

Local Open Scope string_scope.
Local Open Scope list_scope.
Local Open Scope Z_scope.

(** ** Python values, exceptions, results *)

#[warnings="-register-all"]
Inductive PyVal :=
  | PyNone
  | PyInt (z : Z)
  | PyStr (s : string)
  | PyList (l : list PyVal)
  | PyDict (d : gmap string PyVal).

Inductive Exn :=
  | AssertionError (msg : string)
  | IndexError
  | KeyError (key : string)
  | ValueError
  | AttributeError (name : string)
  | NotImplementedError
  | UnicodeEncodeError.

Inductive Res (A : Type) :=
  | OK (a : A)
  | Raise (e : Exn).
Arguments OK {A} a.
Arguments Raise {A} e.

(** [l[i]] on a Python list: a negative index counts from the end, an index
    out of range raises [IndexError]. *)
Definition py_getitem {A} (l : list A) (i : Z) : Res A :=
  let j := if i <? 0 then i + Z.of_nat (length l) else i in
  if j <? 0 then Raise IndexError
  else match l !! Z.to_nat j with
       | Some x => OK x
       | None => Raise IndexError
       end.

(** [l.index(x)]: position of the first occurrence, [ValueError] if none. *)
Fixpoint list_index (x : string) (l : list string) : option nat :=
  match l with
  | [] => None
  | y :: l' => if decide (y = x) then Some 0%nat else S <$> list_index x l'
  end.

Definition py_index (l : list string) (x : string) : Res Z :=
  match list_index x l with
  | Some i => OK (Z.of_nat i)
  | None => Raise ValueError
  end.

(** [unicode(i)] for a list position [i]: its decimal numeral. *)
Definition unicode_of_nat (i : nat) : string := pretty i.

(** Step names are [unicode] objects ([__init__] stores [unicode(...)] as
    keys); a [string] here is the sequence of their code points, each below
    256.  A code point is ASCII when it is below 128. *)
Fixpoint is_ascii (u : string) : bool :=
  match u with
  | EmptyString => true
  | String c u' => (Ascii.nat_of_ascii c <? 128)%nat && is_ascii u'
  end.

(** [str(u)] on a [unicode] object (Python 2): the ASCII encoding, which
    raises [UnicodeEncodeError] at a code point that is not ASCII. *)
Definition py_str (u : string) : Res string :=
  if is_ascii u then OK u else Raise UnicodeEncodeError.

(** ** django.utils.datastructures.SortedDict

    A dictionary that remembers the order in which keys were first set:
    [__setitem__] appends the key to [keyOrder] only when the key is new,
    and replaces the value either way. *)

Record SortedDict (V : Type) := mkSortedDict {
  keyOrder : list string;
  dict : gmap string V
}.
Arguments mkSortedDict {V} _ _.
Arguments keyOrder {V} _.
Arguments dict {V} _.

Definition sd_empty {V} : SortedDict V := mkSortedDict [] ∅.

Definition sd_has_key {V} (sd : SortedDict V) (k : string) : bool :=
  bool_decide (is_Some (dict sd !! k)).

Definition sd_setitem {V} (k : string) (v : V) (sd : SortedDict V) : SortedDict V :=
  mkSortedDict (if sd_has_key sd k then keyOrder sd else keyOrder sd ++ [k])
               (<[k := v]> (dict sd)).

Definition sd_getitem {V} (sd : SortedDict V) (k : string) : Res V :=
  match dict sd !! k with
  | Some v => OK v
  | None => Raise (KeyError k)
  end.

Definition sd_keys {V} (sd : SortedDict V) : list string := keyOrder sd.

Definition sd_len {V} (sd : SortedDict V) : nat := size (dict sd).

(** ** Forms (django.forms, consumed through its interface)

    A form class is what the wizard is configured with for one step; calling
    it with the keyword arguments of [get_form] gives a form object.  The
    validation engine is the class's own: [fc_clean] is the cleaned data the
    class computes from bound data, [None] when the data do not validate.
    Cleaned data are a dictionary for a plain form and a list for a form
    set. *)

Inductive Cleaned :=
  | CleanedDict (d : gmap string PyVal)
  | CleanedList (l : list PyVal).

Record FormClass := mkFormClass {
  fc_name : string;
  fc_is_model_form : bool;      (* issubclass(cls, forms.ModelForm) *)
  fc_clean : string -> gmap string PyVal -> option PyVal ->
             gmap string string -> option Cleaned
}.

Record Form := mkForm {
  form_class : FormClass;
  form_data : option (gmap string string);   (* kwargs['data'] *)
  form_prefix : string;                      (* kwargs['prefix'] *)
  form_initial : gmap string PyVal;          (* kwargs['initial'] *)
  form_instance : option PyVal               (* kwargs['instance'], if passed *)
}.

(** [form.data]: the form keeps [data or {}], so an unbound form has the
    empty mapping. *)
Definition form_raw_data (f : Form) : gmap string string :=
  default ∅ (form_data f).

Definition form_clean (f : Form) : option Cleaned :=
  match form_data f with
  | None => None                             (* an unbound form is never valid *)
  | Some d => fc_clean (form_class f) (form_prefix f) (form_initial f)
                       (form_instance f) d
  end.

Definition is_valid (f : Form) : bool := bool_decide (is_Some (form_clean f)).

(** [form.cleaned_data]; the attribute exists only on a form that validated. *)
Definition cleaned_data (f : Form) : Res Cleaned :=
  match form_clean f with
  | Some c => OK c
  | None => Raise (AttributeError "cleaned_data")
  end.

(** ** Storage backend *)

(** Modelled from the spec: the package [formwizard.storage] ([get_storage]
    and the session and cookie backends) is not among the sources.  Per the
    spec's storage interface contract, the backend keeps the current step
    (or none), the raw data last stored for each step ("none" if never
    submitted) and the extra-context mapping; the setters overwrite and
    [reset] clears all of it. *)
Record Storage := mkStorage {
  current_step : option string;
  step_data : gmap string (gmap string string);
  extra_context : gmap string PyVal
}.

(** Modelled from the spec: the state of a storage backend after [reset] and
    on first interaction. *)
Definition empty_storage : Storage := mkStorage None ∅ ∅.

(** What lies outside the wizard and its storage; only the collaborators the
    integrator supplies (completion handler, step views) act on it. *)
Record St := mkSt {
  storage : Storage;
  world : list PyVal
}.

(** The monad of the methods: state passing, with Python exceptions. *)
Definition Py (A : Type) : Type := St -> Res (A * St).

Definition ret {A} (a : A) : Py A := fun st => OK (a, st).

Definition raise {A} (e : Exn) : Py A := fun _ => Raise e.

Definition bind {A B} (c : Py A) (k : A -> Py B) : Py B :=
  fun st => match c st with
            | OK (a, st') => k a st'
            | Raise e => Raise e
            end.

Definition lift {A} (r : Res A) : Py A :=
  fun st => match r with
            | OK a => OK (a, st)
            | Raise e => Raise e
            end.

Notation "x <~ c ;; k" := (bind c (fun x => k))
  (at level 100, c at level 99, k at level 200, right associativity).
Notation "c ;;; k" := (bind c (fun _ => k))
  (at level 100, k at level 200, right associativity).

Definition with_storage (f : Storage -> Storage) : Py unit :=
  fun st => OK (tt, mkSt (f (storage st)) (world st)).

Definition read_storage {A} (f : Storage -> A) : Py A :=
  fun st => OK (f (storage st), st).

(** Modelled from the spec: [storage.get_current_step()]. *)
Definition storage_get_current_step : Py (option string) :=
  read_storage current_step.

(** Modelled from the spec: [storage.set_current_step(step)]. *)
Definition storage_set_current_step (step : option string) : Py unit :=
  with_storage (fun s => mkStorage step (step_data s) (extra_context s)).

(** Modelled from the spec: [storage.get_step_data(step)], "none" if the
    step was never submitted. *)
Definition storage_get_step_data (step : option string)
  : Py (option (gmap string string)) :=
  read_storage (fun s => step ≫= (step_data s !!.)).

(** Modelled from the spec: [storage.set_step_data(step, data)]. *)
Definition storage_set_step_data (step : string) (data : gmap string string)
  : Py unit :=
  with_storage (fun s =>
    mkStorage (current_step s) (<[step := data]> (step_data s)) (extra_context s)).

(** Modelled from the spec: [storage.get_extra_context_data()]. *)
Definition storage_get_extra_context_data : Py (gmap string PyVal) :=
  read_storage extra_context.

(** Modelled from the spec: [storage.set_extra_context_data(mapping)]. *)
Definition storage_set_extra_context_data (m : gmap string PyVal) : Py unit :=
  with_storage (fun s => mkStorage (current_step s) (step_data s) m).

(** Modelled from the spec: [storage.reset()]. *)
Definition storage_reset : Py unit := with_storage (fun _ => empty_storage).

(** ** Requests and responses (the web framework's, reduced to what the
    wizard reads and builds) *)

Record Request := mkRequest {
  method : string;
  POST : gmap string string
}.

(** The template context built by [render_template]. *)
Record RenderContext := mkRenderContext {
  ctx_extra_context : gmap string PyVal;
  ctx_form_step : string;
  ctx_form_first_step : string;
  ctx_form_last_step : string;
  ctx_form_prev_step : option string;
  ctx_form_next_step : option string;
  ctx_form_step0 : Z;
  ctx_form_step1 : Z;
  ctx_form_step_count : nat;
  ctx_form : Form
}.

Inductive Response :=
  | TemplateResponse (template : string) (ctx : RenderContext)
  | HandlerResponse (body : PyVal).

(** The completion handler: [done(request, form_list)]. *)
Definition Handler : Type := Request -> list Form -> Py Response.

(** ** The wizard classes *)

(** What attribute lookup on a wizard object finds in its class for the two
    names the sources leave to the class: [done], which [FormWizard] defines
    only to raise [NotImplementedError] and a subclass is to override
    ([None] stands for the inherited definition), and [process_reset], which
    [views._process_request] calls. *)
Record WizardClass := mkWizardClass {
  class_name : string;
  class_done : option Handler;
  class_process_reset : option (Py Response)
}.

(** [class FormWizard(object)]: [done] raises; there is no
    [def process_reset] in the class body. *)
Definition FormWizard : WizardClass := mkWizardClass "FormWizard" None None.

(** [class SessionFormWizard(FormWizard)]: overrides [__init__] only. *)
Definition SessionFormWizard : WizardClass :=
  mkWizardClass "SessionFormWizard" None None.

(** [class CookieFormWizard(FormWizard)]: overrides [__init__] only. *)
Definition CookieFormWizard : WizardClass :=
  mkWizardClass "CookieFormWizard" None None.

(** The attributes [__init__] sets on [self]. *)
Record Wizard := mkWizard {
  wizard_class : WizardClass;
  form_list : SortedDict FormClass;
  storage_name : string;
  done_view : option Handler;               (* self.done, when done_view was given *)
  initial_list : gmap string (gmap string PyVal);
  instance_list : gmap string PyVal
}.

(** An entry of the [form_list] argument: a [(step_name, form_class)] tuple
    or a bare form class. *)
Inductive FormEntry :=
  | Named (step_name : string) (form : FormClass)
  | Bare (form : FormClass).

(** The loop of [__init__]: [for i in range(len(form_list))]. *)
Fixpoint init_form_list (i : nat) (entries : list FormEntry)
    (self_form_list : SortedDict FormClass) : SortedDict FormClass :=
  match entries with
  | [] => self_form_list
  | form :: rest =>
      init_form_list (S i) rest
        (match form with
         | Named name cls => sd_setitem name cls self_form_list
         | Bare cls => sd_setitem (unicode_of_nat i) cls self_form_list
         end)
  end.

(** [FormWizard.__init__(self, storage, form_list, done_view, initial_list,
    instance_list)], for an object of class [cls]. *)
Definition FormWizard_init (cls : WizardClass) (storage : string)
    (form_list : list FormEntry) (done_view : option Handler)
    (initial_list : gmap string (gmap string PyVal))
    (instance_list : gmap string PyVal) : Res Wizard :=
  if Z.of_nat (length form_list) >? 0 then
    OK (mkWizard cls (init_form_list 0 form_list sd_empty) storage done_view
                 initial_list instance_list)
  else Raise (AssertionError "at least one form is needed").

(** [SessionFormWizard.__init__(self, *args, **kwargs)] *)
Definition SessionFormWizard_init :=
  FormWizard_init SessionFormWizard "formwizard.storage.session.SessionStorage".

(** [CookieFormWizard.__init__(self, *args, **kwargs)] *)
Definition CookieFormWizard_init :=
  FormWizard_init CookieFormWizard "formwizard.storage.cookie.CookieStorage".

(** ** Methods of [FormWizard] *)

Definition get_first_step (self : Wizard) : Res string :=
  py_getitem (sd_keys (form_list self)) 0.

Definition get_last_step (self : Wizard) : Res string :=
  py_getitem (sd_keys (form_list self)) (-1).

(** [x or y] where [x] is a step name or [None]: [y] is evaluated, and is
    the result, exactly when [x] is false, that is [None] or the empty
    string. *)
Definition py_or (x : option string) (y : Py string) : Py string :=
  match x with
  | None => y
  | Some s => if String.eqb s "" then y else ret s
  end.

Definition determine_step (self : Wizard) : Py string :=
  x <~ storage_get_current_step ;;
  py_or x (lift (get_first_step self)).

(** [if step is None: step = self.determine_step()] *)
Definition step_or_current (self : Wizard) (step : option string) : Py string :=
  match step with
  | None => determine_step self
  | Some s => ret s
  end.

Definition get_next_step (self : Wizard) (step : option string)
  : Py (option string) :=
  step <~ step_or_current self step ;;
  i <~ lift (py_index (keyOrder (form_list self)) step) ;;
  let key := i + 1 in
  if Z.of_nat (length (keyOrder (form_list self))) >? key
  then x <~ lift (py_getitem (keyOrder (form_list self)) key) ;; ret (Some x)
  else ret None.

Definition get_prev_step (self : Wizard) (step : option string)
  : Py (option string) :=
  step <~ step_or_current self step ;;
  i <~ lift (py_index (keyOrder (form_list self)) step) ;;
  let key := i - 1 in
  if key <? 0
  then ret None
  else x <~ lift (py_getitem (keyOrder (form_list self)) key) ;; ret (Some x).

Definition get_step_index (self : Wizard) (step : option string) : Py Z :=
  step <~ step_or_current self step ;;
  lift (py_index (keyOrder (form_list self)) step).

Definition num_steps (self : Wizard) : nat := sd_len (form_list self).

Definition get_wizard_name (self : Wizard) : string :=
  class_name (wizard_class self).

Definition get_template (self : Wizard) : string := "formwizard/wizard.html".

(** [get_form_prefix(self, step=None, form=None)]: [str(step)]. *)
Definition get_form_prefix (self : Wizard) (step : option string)
    (form : FormClass) : Py string :=
  step <~ step_or_current self step ;;
  lift (py_str step).

Definition get_form_initial (self : Wizard) (step : string) : gmap string PyVal :=
  default ∅ (initial_list self !! step).

Definition get_form_instance (self : Wizard) (step : string) : PyVal :=
  default PyNone (instance_list self !! step).

Definition get_form (self : Wizard) (step : option string)
    (data : option (gmap string string)) : Py Form :=
  step <~ step_or_current self step ;;
  cls <~ lift (sd_getitem (form_list self) step) ;;
  prefix <~ get_form_prefix self (Some step) cls ;;
  let initial := get_form_initial self step in
  cls' <~ lift (sd_getitem (form_list self) step) ;;
  let instance :=
    if fc_is_model_form cls' then Some (get_form_instance self step) else None in
  cls'' <~ lift (sd_getitem (form_list self) step) ;;
  ret (mkForm cls'' data prefix initial instance).

Definition get_form_step_data (self : Wizard) (form : Form)
  : gmap string string :=
  form_raw_data form.

Definition process_step (self : Wizard) (form : Form)
  : gmap string string :=
  get_form_step_data self form.

Definition reset_wizard (self : Wizard) : Py unit := storage_reset.

Definition get_extra_context (self : Wizard) : Py (gmap string PyVal) :=
  storage_get_extra_context_data.

(** [context.update(new_context)]: the keys of [new_context] are set in
    [context], the others stay. *)
Definition dict_update {V} (context new_context : gmap string V) : gmap string V :=
  new_context ∪ context.

Definition update_extra_context (self : Wizard) (new_context : gmap string PyVal)
  : Py unit :=
  context <~ get_extra_context self ;;
  let context := dict_update context new_context in
  storage_set_extra_context_data context.

(** [render_template(self, request, form=None)]; a form object is true, so
    [form or self.get_form()] builds the current step's form only when no
    form is passed. *)
Definition render_template (self : Wizard) (request : Request)
    (form : option Form) : Py Response :=
  form <~ match form with
          | Some f => ret f
          | None => get_form self None None
          end ;;
  let template := get_template self in
  extra <~ get_extra_context self ;;
  form_step <~ determine_step self ;;
  first <~ lift (get_first_step self) ;;
  last <~ lift (get_last_step self) ;;
  prev <~ get_prev_step self None ;;
  next <~ get_next_step self None ;;
  step0 <~ get_step_index self None ;;
  step1 <~ get_step_index self None ;;
  ret (TemplateResponse template
         (mkRenderContext extra form_step first last prev next
                          step0 (step1 + 1) (num_steps self) form)).

Definition render (self : Wizard) (request : Request) (form : Form)
  : Py Response :=
  render_template self request (Some form).

(** [self.done(request, form_list)]: the instance attribute set from
    [done_view], else the class's [done]; [FormWizard.done] raises. *)
Definition done (self : Wizard) (request : Request) (forms : list Form)
  : Py Response :=
  match done_view self with
  | Some handler => handler request forms
  | None =>
      match class_done (wizard_class self) with
      | Some handler => handler request forms
      | None => raise NotImplementedError
      end
  end.

Definition render_next_step (self : Wizard) (request : Request) (form : Form)
  : Py Response :=
  next_step <~ get_next_step self None ;;
  data <~ storage_get_step_data next_step ;;
  new_form <~ get_form self next_step data ;;
  storage_set_current_step next_step ;;;
  render self request new_form.

(** [request.POST['form_prev_step']] *)
Definition post_getitem (request : Request) (key : string) : Py string :=
  match POST request !! key with
  | Some v => ret v
  | None => raise (KeyError key)
  end.

Definition render_backward (self : Wizard) (request : Request) : Py Response :=
  prev <~ post_getitem request "form_prev_step" ;;
  storage_set_current_step (Some prev) ;;;
  step <~ determine_step self ;;
  data <~ storage_get_step_data (Some step) ;;
  form <~ get_form self None data ;;
  render self request form.

Definition render_revalidation_failure (self : Wizard) (request : Request)
    (step : string) (form : Form) : Py Response :=
  storage_set_current_step (Some step) ;;;
  render self request form.

(** The loop of [render_done] over [self.form_list.keys()], from the keys
    still to visit and the forms collected so far. *)
Fixpoint render_done_loop (self : Wizard) (request : Request)
    (keys : list string) (final_form_list : list Form) : Py Response :=
  match keys with
  | [] => done self request final_form_list
  | form_key :: keys' =>
      data <~ storage_get_step_data (Some form_key) ;;
      form_obj <~ get_form self (Some form_key) data ;;
      if negb (is_valid form_obj)
      then render_revalidation_failure self request form_key form_obj
      else render_done_loop self request keys' (final_form_list ++ [form_obj])
  end.

Definition render_done (self : Wizard) (request : Request) (form : Form)
  : Py Response :=
  render_done_loop self request (sd_keys (form_list self)) [].

(** ['formset-%s' % form_key] *)
Definition formset_key (form_key : string) : string := "formset-" +:+ form_key.

(** The loop of [get_all_cleaned_data]. *)
Fixpoint get_all_cleaned_data_loop (self : Wizard) (keys : list string)
    (cleaned_dict : gmap string PyVal) : Py (gmap string PyVal) :=
  match keys with
  | [] => ret cleaned_dict
  | form_key :: keys' =>
      data <~ storage_get_step_data (Some form_key) ;;
      form_obj <~ get_form self (Some form_key) data ;;
      if is_valid form_obj then
        c <~ lift (cleaned_data form_obj) ;;
        match c with
        | CleanedList l =>
            get_all_cleaned_data_loop self keys'
              (dict_update cleaned_dict {[ formset_key form_key := PyList l ]})
        | CleanedDict d =>
            get_all_cleaned_data_loop self keys' (dict_update cleaned_dict d)
        end
      else get_all_cleaned_data_loop self keys' cleaned_dict
  end.

Definition get_all_cleaned_data (self : Wizard) : Py (gmap string PyVal) :=
  get_all_cleaned_data_loop self (sd_keys (form_list self)) ∅.

Definition get_cleaned_data_for_step (self : Wizard) (step : string)
  : Py (option Cleaned) :=
  if sd_has_key (form_list self) step then
    data <~ storage_get_step_data (Some step) ;;
    form_obj <~ get_form self (Some step) data ;;
    if is_valid form_obj
    then c <~ lift (cleaned_data form_obj) ;; ret (Some c)
    else ret None
  else ret None.

(** ** [formwizard/views.py] *)

(** A step view, as [get_callable] resolves it: called with
    [(request, wizard)]. *)
Definition StepView : Type := Request -> Wizard -> Py Response.

(** [wizard.process_reset()]: the attribute is looked up on the object's
    class; a class without it raises [AttributeError]. *)
Definition call_process_reset (wizard : Wizard) : Py Response :=
  match class_process_reset (wizard_class wizard) with
  | Some m => m
  | None => raise (AttributeError "process_reset")
  end.

Definition _process_request (request : Request) (wizard : Wizard)
    (step_views : gmap string StepView) : Py Response :=
  if String.eqb (method request) "GET" then call_process_reset wizard
  else
    if bool_decide (is_Some (POST request !! "form_prev_step"))
       && match POST request !! "form_prev_step" with
          | Some prev => sd_has_key (form_list wizard) prev
          | None => false
          end
    then render_backward wizard request
    else
      current_step <~ storage_get_current_step ;;
      step_view <~
        match current_step ≫= (step_views !!.) with
        | Some v => ret v
        | None =>
            match step_views !! "default" with
            | Some v => ret v
            | None => raise (KeyError "default")
            end
        end ;;
      step_view request wizard.

(** ** Reading the configuration *)

(** The step name [__init__] gives the entry at position [i]. *)
Definition entry_key (i : nat) (e : FormEntry) : string :=
  match e with
  | Named name _ => name
  | Bare _ => unicode_of_nat i
  end.

Definition entry_form (e : FormEntry) : FormClass :=
  match e with
  | Named _ cls => cls
  | Bare cls => cls
  end.

(** Step names of a [form_list] argument, position by position from [i]. *)
Fixpoint entry_keys (i : nat) (entries : list FormEntry) : list string :=
  match entries with
  | [] => []
  | e :: rest => entry_key i e :: entry_keys (S i) rest
  end.

Fixpoint entry_pairs (i : nat) (entries : list FormEntry)
  : list (string * FormClass) :=
  match entries with
  | [] => []
  | e :: rest => (entry_key i e, entry_form e) :: entry_pairs (S i) rest
  end.

(** Names in order of first appearance: [seen], then the names of [ks] not
    met before. *)
Fixpoint first_appearances (seen ks : list string) : list string :=
  match ks with
  | [] => seen
  | k :: ks' =>
      first_appearances (if decide (k ∈ seen) then seen else seen ++ [k]) ks'
  end.

(** The invariant of a [SortedDict]: [keyOrder] lists the keys of the
    dictionary, each once. *)
Definition sd_wf {V} (sd : SortedDict V) : Prop :=
  NoDup (keyOrder sd) /\ forall k, k ∈ keyOrder sd <-> is_Some (dict sd !! k).

(** What [__init__] establishes about a wizard: a well-formed, non-empty
    [form_list]. *)
Definition wizard_wf (w : Wizard) : Prop :=
  sd_wf (form_list w) /\ keyOrder (form_list w) <> [].

(** The step the wizard works on for a given storage: the stored current
    step unless it is false, else the first configured step. *)
Definition effective_step (w : Wizard) (s : Storage) : string :=
  let first := default "" (head (keyOrder (form_list w))) in
  match current_step s with
  | None => first
  | Some x => if decide (x = "") then first else x
  end.

(** The form [get_form] builds for step [k] of class [cls] from [data]. *)
Definition build_form (w : Wizard) (k : string) (cls : FormClass)
    (data : option (gmap string string)) : Form :=
  mkForm cls data k (get_form_initial w k)
         (if fc_is_model_form cls then Some (get_form_instance w k) else None).

(** The form of step [k] bound to the data stored for it. *)
Definition stored_form (w : Wizard) (s : Storage) (k : string) : option Form :=
  cls ← dict (form_list w) !! k;
  Some (build_form w k cls (step_data s !! k)).

(** The storage with its current step replaced. *)
Definition at_step (k : option string) (st : St) : St :=
  mkSt (mkStorage k (step_data (storage st)) (extra_context (storage st)))
       (world st).


(** The same wizard with another completion handler, on the object and in
    its class. *)
Definition with_handlers (w : Wizard) (on_object in_class : option Handler)
  : Wizard :=
  mkWizard (mkWizardClass (class_name (wizard_class w)) in_class
                          (class_process_reset (wizard_class w)))
           (form_list w) (storage_name w) on_object
           (initial_list w) (instance_list w).

(** What a validating step adds to the merged dictionary: its cleaned
    dictionary, or its cleaned list under the key ['formset-<step>']. *)
Definition contribution (k : string) (c : Cleaned) : gmap string PyVal :=
  match c with
  | CleanedDict d => d
  | CleanedList l => {[ formset_key k := PyList l ]}
  end.

(** Cleaned data of step [k] validated against its stored data, if it
    validates. *)
Definition step_cleaned (w : Wizard) (s : Storage) (k : string) : option Cleaned :=
  stored_form w s k ≫= form_clean.


(** The merge the spec describes: over the validating steps in order, each
    step's contribution laid over what came before. *)
Definition merge_steps (w : Wizard) (s : Storage) (acc : gmap string PyVal)
    (ks : list string) : gmap string PyVal :=
  foldl (fun acc k =>
           match step_cleaned w s k with
           | Some c => dict_update acc (contribution k c)
           | None => acc
           end) acc ks.


(** Every configured step name is ASCII, so that [str(step)] succeeds for
    each of them. *)
Definition ascii_steps (w : Wizard) : bool :=
  forallb is_ascii (sd_keys (form_list w)).

(** ** Example configurations *)

(** A form with one required text field [field]: bound data validate when
    the prefixed field is present and not empty. *)
Definition required_text_form (field : string) : FormClass :=
  mkFormClass "RequiredTextForm" false
    (fun prefix _ _ data =>
       match data !! (prefix +:+ "-" +:+ field) with
       | Some v => if decide (v = "") then None
                   else Some (CleanedDict {[ field := PyStr v ]})
       | None => None
       end).

(** A form set: one record per submitted value of [field]-0, [field]-1. *)
Definition text_formset (field : string) : FormClass :=
  mkFormClass "TextFormSet" false
    (fun prefix _ _ data =>
       match data !! (prefix +:+ "-0-" +:+ field),
             data !! (prefix +:+ "-1-" +:+ field) with
       | Some u, Some v =>
           Some (CleanedList [PyDict {[ field := PyStr u ]};
                              PyDict {[ field := PyStr v ]}])
       | _, _ => None
       end).

(** The linear three-step wizard "a", "b", "c". *)
Definition abc_entries : list FormEntry :=
  [Named "a" (required_text_form "x");
   Named "b" (required_text_form "y");
   Named "c" (required_text_form "z")].

(** A completion handler that answers with the prefixes of the forms it is
    given and leaves a mark in the world. *)
Definition record_done : Handler :=
  fun _ forms st =>
    OK (HandlerResponse (PyList (map (fun f => PyStr (form_prefix f)) forms)),
        mkSt (storage st) (PyStr "done" :: world st)).

Definition session_storage : string :=
  "formwizard.storage.session.SessionStorage".

Definition abc_wizard : Wizard :=
  mkWizard FormWizard (init_form_list 0 abc_entries sd_empty)
           session_storage (Some record_done) ∅ ∅.

(** A wizard one of whose steps is named by the empty string. *)
Definition blank_entries : list FormEntry :=
  [Named "a" (required_text_form "x"); Named "" (required_text_form "y")].

Definition blank_wizard : Wizard :=
  mkWizard FormWizard (init_form_list 0 blank_entries sd_empty)
           session_storage None ∅ ∅.

(** Two entries under one step name. *)
Definition twin_entries : list FormEntry :=
  [Named "a" (required_text_form "x"); Named "a" (required_text_form "y")].

Definition fresh_state : St := mkSt empty_storage [].

(** All three steps of [abc_wizard] submitted with valid data, the wizard
    standing at "c". *)
Definition abc_filled : St :=
  mkSt (mkStorage (Some "c")
          {[ "a" := {[ "a-x" := "1" ]};
             "b" := {[ "b-y" := "2" ]};
             "c" := {[ "c-z" := "3" ]} ]} ∅) [].

(** The same with the data stored for "a" made invalid. *)
Definition abc_tampered : St :=
  mkSt (mkStorage (Some "c")
          {[ "a" := {[ "a-x" := "" ]};
             "b" := {[ "b-y" := "2" ]};
             "c" := {[ "c-z" := "3" ]} ]} ∅) [].

(** [blank_wizard] with the empty-named step stored as current. *)
Definition blank_current : St :=
  mkSt (mkStorage (Some "")
          {[ "a" := {[ "a-x" := "1" ]}; "" := {[ "-y" := "2" ]} ]} ∅) [].

(** A wizard whose middle step is a form set, and a state in which the
    first two steps validate and the third was never submitted. *)
Definition formset_entries : list FormEntry :=
  [Named "a" (required_text_form "x");
   Named "b" (text_formset "y");
   Named "c" (required_text_form "z")].

Definition formset_wizard : Wizard :=
  mkWizard FormWizard (init_form_list 0 formset_entries sd_empty)
           session_storage None ∅ ∅.


(** The submission of step "c" of [abc_wizard] and the form bound to it. *)
Definition submit_c : Request := mkRequest "POST" {[ "c-z" := "3" ]}.

Definition form_c : Form :=
  build_form abc_wizard "c" (required_text_form "z") (Some (POST submit_c)).


(** A submission asking to go back to step "a". *)
Definition back_to_a : Request :=
  mkRequest "POST" {[ "form_prev_step" := "a" ]}.

(** A submission asking to go back to a step that is not configured. *)
Definition back_to_nowhere : Request :=
  mkRequest "POST" {[ "form_prev_step" := "zzz" ]}.

Definition get_request : Request := mkRequest "GET" ∅.

(** A step view that answers without rendering. *)
Definition echo_view : StepView :=
  fun _ _ => ret (HandlerResponse (PyStr "default view")).

(** ** Further example configurations *)

(** Three bare form classes: the steps are named by their positions. *)
Definition bare_entries : list FormEntry :=
  [Bare (required_text_form "x"); Bare (required_text_form "y");
   Bare (required_text_form "z")].

Definition bare_wizard : Wizard :=
  mkWizard FormWizard (init_form_list 0 bare_entries sd_empty)
           session_storage None ∅ ∅.

(** The three-step wizard without a completion handler. *)
Definition abc_plain_wizard : Wizard :=
  mkWizard FormWizard (init_form_list 0 abc_entries sd_empty)
           session_storage None ∅ ∅.

(** [abc_wizard] standing at "a", with data stored for "a" and "b". *)
Definition abc_at_a : St :=
  mkSt (mkStorage (Some "a")
          {[ "a" := {[ "a-x" := "1" ]}; "b" := {[ "b-y" := "2" ]} ]}
          {[ "title" := PyStr "Sign up" ]}) [].

(** A storage that names a step the wizard does not have. *)
Definition stale_state : St :=
  mkSt (mkStorage (Some "zzz") ∅ ∅) [].

(** A plain submission, naming no previous step. *)
Definition submit_a : Request := mkRequest "POST" {[ "a-x" := "1" ]}.

(** A step view of its own for step "a". *)
Definition a_view : StepView :=
  fun _ _ => ret (HandlerResponse (PyStr "view of a")).

(** The [unicode] name [u'caf\xe9']: its last code point, 233, is not
    ASCII. *)
Definition cafe : string := "caf" +:+ String (Ascii.ascii_of_nat 233) EmptyString.

(** A wizard whose second step has that name, and a state in which both
    steps have data stored that their forms accept. *)
Definition cafe_entries : list FormEntry :=
  [Named "a" (required_text_form "x"); Named cafe (required_text_form "y")].

Definition cafe_wizard : Wizard :=
  mkWizard FormWizard (init_form_list 0 cafe_entries sd_empty)
           session_storage (Some record_done) ∅ ∅.

Definition cafe_filled : St :=
  mkSt (mkStorage (Some "a")
          {[ "a" := {[ "a-x" := "1" ]};
             cafe := {[ cafe +:+ "-y" := "2" ]} ]} ∅) [].


(** * The model on concrete inputs *)

Example py_getitem_negative : py_getitem ["a"; "b"; "c"] (-1) = OK "c".
Proof. reflexivity. Qed.

Example py_getitem_out_of_range : py_getitem ["a"; "b"; "c"] 3 = Raise IndexError.
Proof. reflexivity. Qed.

Example py_index_missing : py_index ["a"; "b"; "c"] "zzz" = Raise ValueError.
Proof. reflexivity. Qed.

(** Bare form classes are keyed by their position. *)
Example init_form_list_positions :
  sd_keys (init_form_list 0
             [Bare (required_text_form "x"); Named "b" (required_text_form "y");
              Bare (required_text_form "z")] sd_empty)
  = ["0"; "b"; "2"].
Proof. vm_compute. reflexivity. Qed.

Example abc_steps : sd_keys (form_list abc_wizard) = ["a"; "b"; "c"].
Proof. vm_compute. reflexivity. Qed.

Example abc_next_of_b :
  get_next_step abc_wizard (Some "b") fresh_state = OK (Some "c", fresh_state).
Proof. vm_compute. reflexivity. Qed.

Example abc_prev_of_current :
  get_prev_step abc_wizard None abc_filled = OK (Some "b", abc_filled).
Proof. vm_compute. reflexivity. Qed.

(** An unconfigured step name is an error of the list lookup. *)
Example abc_next_of_unknown :
  get_next_step abc_wizard (Some "zzz") fresh_state = Raise ValueError.
Proof. vm_compute. reflexivity. Qed.

Example abc_form_of_unknown :
  get_form abc_wizard (Some "zzz") None fresh_state = Raise (KeyError "zzz").
Proof. vm_compute. reflexivity. Qed.

(** Without a completion handler [done] raises. *)
Example formset_wizard_done :
  done formset_wizard get_request [] fresh_state = Raise NotImplementedError.
Proof. reflexivity. Qed.

Example abc_cleaned_a :
  get_cleaned_data_for_step abc_wizard "a" abc_filled
  = OK (Some (CleanedDict {[ "x" := PyStr "1" ]}), abc_filled).
Proof. vm_compute. reflexivity. Qed.

Example abc_cleaned_a_tampered :
  get_cleaned_data_for_step abc_wizard "a" abc_tampered = OK (None, abc_tampered).
Proof. vm_compute. reflexivity. Qed.

(** [str] of a step name: the name itself when it is ASCII. *)
Example py_str_ascii : py_str "step-1" = OK "step-1".
Proof. reflexivity. Qed.

Example py_str_non_ascii : py_str cafe = Raise UnicodeEncodeError.
Proof. reflexivity. Qed.

(** The form of a configured step whose name is not ASCII cannot be built;
    the lookup of the class comes first, so an unknown name is still a
    [KeyError]. *)
Example cafe_form :
  get_form cafe_wizard (Some cafe) None cafe_filled = Raise UnicodeEncodeError.
Proof. vm_compute. reflexivity. Qed.

Example cafe_form_of_unknown :
  get_form cafe_wizard (Some ("x" +:+ cafe)) None cafe_filled
  = Raise (KeyError ("x" +:+ cafe)).
Proof. vm_compute. reflexivity. Qed.

(** [form.data] of an unbound form is the empty mapping. *)
Example unbound_form_data :
  process_step abc_wizard (build_form abc_wizard "a" (required_text_form "x") None)
  = ∅.
Proof. reflexivity. Qed.

(** * Properties *)

(** ** Python list operations *)

Lemma list_index_lookup (x : string) (l : list string) (i : nat) :
  list_index x l = Some i -> l !! i = Some x.
Proof.
  revert i; induction l as [|y l IH]; intros i; simpl; [done|].
  destruct (decide (y = x)) as [->|Hne].
  - by intros [= <-].
  - destruct (list_index x l) as [j|] eqn:E; simpl; [|done].
    intros [= <-]. simpl. by apply IH.
Qed.

Lemma list_index_elem (x : string) (l : list string) :
  x ∈ l -> is_Some (list_index x l).
Proof.
  induction l as [|y l IH]; simpl.
  - by intros ?%elem_of_nil.
  - intros [->|Hin]%elem_of_cons.
    + rewrite decide_True; eauto.
    + destruct (decide (y = x)); [eauto|].
      destruct (IH Hin) as [j ->]. simpl; eauto.
Qed.

Lemma list_index_None (x : string) (l : list string) :
  x ∉ l -> list_index x l = None.
Proof.
  intros Hx. destruct (list_index x l) as [i|] eqn:E; [|done].
  apply list_index_lookup in E. destruct Hx. by eapply list_elem_of_lookup_2.
Qed.

Lemma list_index_NoDup (x : string) (l : list string) (i : nat) :
  NoDup l -> l !! i = Some x -> list_index x l = Some i.
Proof.
  intros Hnd Hi.
  destruct (list_index_elem x l) as [j Hj]; [by eapply list_elem_of_lookup_2|].
  pose proof (list_index_lookup _ _ _ Hj) as Hj'.
  rewrite Hj. f_equal. eapply NoDup_lookup; eauto.
Qed.

Lemma py_getitem_nat {A} (l : list A) (i : nat) (x : A) :
  l !! i = Some x -> py_getitem l (Z.of_nat i) = OK x.
Proof.
  intros H. unfold py_getitem.
  destruct (Z.ltb_spec (Z.of_nat i) 0) as [?|_]; [lia|].
  destruct (Z.ltb_spec (Z.of_nat i) 0) as [?|_]; [lia|].
  by rewrite Nat2Z.id, H.
Qed.

Lemma py_getitem_first {A} (x : A) (l : list A) : py_getitem (x :: l) 0 = OK x.
Proof. apply (py_getitem_nat (x :: l) 0). done. Qed.

Lemma py_getitem_last {A} (l : list A) (x : A) :
  last l = Some x -> py_getitem l (-1) = OK x.
Proof.
  intros H. unfold py_getitem. simpl.
  assert (0 < length l)%nat as Hlen by (destruct l; [done|simpl; lia]).
  destruct (Z.ltb_spec (-1 + Z.of_nat (length l)) 0) as [?|_]; [lia|].
  replace (Z.to_nat (-1 + Z.of_nat (length l))) with (pred (length l)) by lia.
  rewrite last_lookup in H. by rewrite H.
Qed.

Lemma py_getitem_Z {A} (l : list A) (z : Z) (x : A) :
  0 <= z -> l !! Z.to_nat z = Some x -> py_getitem l z = OK x.
Proof.
  intros Hz H. unfold py_getitem.
  destruct (Z.ltb_spec z 0) as [?|_]; [lia|].
  destruct (Z.ltb_spec z 0) as [?|_]; [lia|].
  by rewrite H.
Qed.

(** ** [SortedDict] and [__init__] *)

Lemma sd_empty_wf {V} : sd_wf (@sd_empty V).
Proof.
  split; simpl; [constructor|].
  intros k. rewrite lookup_empty, elem_of_nil. split; [done|]. by intros [? ?].
Qed.

Lemma sd_has_key_spec {V} (sd : SortedDict V) (k : string) :
  sd_wf sd -> sd_has_key sd k = true <-> k ∈ keyOrder sd.
Proof.
  intros [_ Hdom]. unfold sd_has_key. rewrite bool_decide_eq_true. by rewrite Hdom.
Qed.

Lemma sd_setitem_keyOrder {V} (k : string) (v : V) (sd : SortedDict V) :
  sd_wf sd ->
  keyOrder (sd_setitem k v sd)
  = if decide (k ∈ keyOrder sd) then keyOrder sd else keyOrder sd ++ [k].
Proof.
  intros Hwf. simpl.
  destruct (sd_has_key sd k) eqn:E; case_decide as Hin; try done.
  - by apply sd_has_key_spec in E.
  - apply (sd_has_key_spec sd k Hwf) in Hin. congruence.
Qed.

Lemma sd_setitem_wf {V} (k : string) (v : V) (sd : SortedDict V) :
  sd_wf sd -> sd_wf (sd_setitem k v sd).
Proof.
  intros Hwf. pose proof (sd_setitem_keyOrder k v sd Hwf) as Hko.
  destruct Hwf as [Hnd Hdom]. split.
  - rewrite Hko. case_decide; [done|].
    apply NoDup_app. split_and!; [done| |apply NoDup_singleton].
    intros x Hx ->%list_elem_of_singleton. done.
  - intros x. rewrite Hko. simpl. rewrite lookup_insert_is_Some.
    case_decide as Hin.
    + rewrite Hdom. split; [|intros [<-|[_ ?]]; [by apply Hdom|done]].
      intros Hx. destruct (decide (k = x)); [by left|by right].
    + rewrite elem_of_app, list_elem_of_singleton, Hdom.
      destruct (decide (k = x)); naive_solver.
Qed.

Lemma init_form_list_wf (i : nat) (entries : list FormEntry) sd :
  sd_wf sd -> sd_wf (init_form_list i entries sd).
Proof.
  revert i sd; induction entries as [|e rest IH]; intros i sd Hwf; simpl; [done|].
  apply IH. destruct e; by apply sd_setitem_wf.
Qed.

Lemma init_form_list_keyOrder (i : nat) (entries : list FormEntry) sd :
  sd_wf sd ->
  keyOrder (init_form_list i entries sd)
  = first_appearances (keyOrder sd) (entry_keys i entries).
Proof.
  revert i sd; induction entries as [|e rest IH]; intros i sd Hwf; simpl; [done|].
  rewrite IH by (destruct e; by apply sd_setitem_wf).
  f_equal. destruct e; by rewrite sd_setitem_keyOrder.
Qed.

Lemma init_form_list_dict (i : nat) (entries : list FormEntry) sd :
  dict (init_form_list i entries sd)
  = list_to_map (reverse (entry_pairs i entries)) ∪ dict sd.
Proof.
  revert i sd; induction entries as [|e rest IH]; intros i sd; simpl.
  - by rewrite (left_id_L ∅ (∪)).
  - rewrite IH, reverse_cons, list_to_map_app. simpl.
    rewrite <-(assoc_L (∪)). f_equal.
    rewrite insert_empty, <-insert_union_singleton_l.
    by destruct e.
Qed.

Lemma first_appearances_prefix (seen ks : list string) :
  exists new, first_appearances seen ks = seen ++ new.
Proof.
  revert seen; induction ks as [|k ks IH]; intros seen; simpl.
  - exists []. by rewrite app_nil_r.
  - case_decide; [apply IH|].
    destruct (IH (seen ++ [k])) as [new ->]. exists (k :: new).
    by rewrite <-app_assoc.
Qed.

Lemma first_appearances_elem (seen ks : list string) (x : string) :
  x ∈ first_appearances seen ks <-> x ∈ seen \/ x ∈ ks.
Proof.
  revert seen; induction ks as [|k ks IH]; intros seen; simpl.
  - rewrite elem_of_nil. naive_solver.
  - rewrite IH, elem_of_cons. case_decide.
    + naive_solver.
    + rewrite elem_of_app, list_elem_of_singleton. naive_solver.
Qed.

Lemma first_appearances_fresh (seen ks : list string) :
  NoDup (seen ++ ks) -> first_appearances seen ks = seen ++ ks.
Proof.
  revert seen; induction ks as [|k ks IH]; intros seen Hnd; simpl.
  - by rewrite app_nil_r.
  - apply NoDup_app in Hnd as Hnd'. destruct Hnd' as (_ & Hdisj & _).
    destruct (decide (k ∈ seen)) as [Hin|Hin];
      [exfalso; apply (Hdisj k Hin); left|].
    rewrite IH; rewrite <-app_assoc; done.
Qed.

Lemma first_appearances_head (k : string) (ks : list string) :
  head (first_appearances [] (k :: ks)) = Some k.
Proof.
  simpl. destruct (decide (k ∈ [])) as [Hin|Hin];
    [by apply elem_of_nil in Hin|]. simpl.
  by destruct (first_appearances_prefix [k] ks) as [new ->].
Qed.

Lemma init_form_list_snoc (i : nat) (entries : list FormEntry) (e : FormEntry)
    (sd : SortedDict FormClass) :
  init_form_list i (entries ++ [e]) sd
  = sd_setitem (entry_key (i + length entries) e) (entry_form e)
               (init_form_list i entries sd).
Proof.
  revert i sd; induction entries as [|e0 rest IH]; intros i sd; simpl.
  - rewrite Nat.add_0_r. by destruct e.
  - rewrite IH. by replace (S i + length rest)%nat with (i + S (length rest))%nat by lia.
Qed.

(** ** Step adjacency *)

Ltac py_unfold :=
  unfold storage_get_current_step, storage_set_current_step,
    storage_get_step_data, storage_set_step_data,
    storage_get_extra_context_data, storage_set_extra_context_data,
    storage_reset, step_or_current in *;
  unfold bind, ret, lift, raise, read_storage, with_storage in *;
  cbv beta iota in *.

Lemma FormWizard_init_OK cls sn entries dv il inl w :
  FormWizard_init cls sn entries dv il inl = OK w ->
  entries <> [] /\
  w = mkWizard cls (init_form_list 0 entries sd_empty) sn dv il inl.
Proof.
  unfold FormWizard_init. destruct entries as [|e rest]; simpl; [done|].
  by intros [= <-].
Qed.

Lemma FormWizard_init_wf cls sn entries dv il inl w :
  FormWizard_init cls sn entries dv il inl = OK w -> wizard_wf w.
Proof.
  intros [Hne ->]%FormWizard_init_OK. split; simpl.
  - apply init_form_list_wf, sd_empty_wf.
  - rewrite init_form_list_keyOrder by apply sd_empty_wf.
    destruct entries as [|e rest]; [done|]. simpl.
    intros Hnil. pose proof (first_appearances_head (entry_key 0 e)
                               (entry_keys 1 rest)) as Hh.
    simpl in Hh. by rewrite Hnil in Hh.
Qed.

Lemma wizard_wf_first (w : Wizard) :
  wizard_wf w ->
  exists first, head (keyOrder (form_list w)) = Some first /\
                get_first_step w = OK first.
Proof.
  intros [_ Hne]. unfold get_first_step, sd_keys.
  destruct (keyOrder (form_list w)) as [|k ks]; [done|].
  exists k. split; [done|apply py_getitem_first].
Qed.

Lemma wizard_wf_last (w : Wizard) :
  wizard_wf w ->
  exists lst, last (keyOrder (form_list w)) = Some lst /\
              get_last_step w = OK lst.
Proof.
  intros [_ Hne]. unfold get_last_step, sd_keys.
  destruct (last (keyOrder (form_list w))) as [k|] eqn:E.
  - exists k. split; [done|by apply py_getitem_last].
  - by apply last_None in E.
Qed.

Lemma py_index_NoDup (l : list string) (i : nat) (x : string) :
  NoDup l -> l !! i = Some x -> py_index l x = OK (Z.of_nat i).
Proof. intros Hnd Hi. unfold py_index. by rewrite (list_index_NoDup x l i). Qed.

Lemma py_index_inv (l : list string) (x : string) (z : Z) :
  py_index l x = OK z -> exists i, z = Z.of_nat i /\ l !! i = Some x.
Proof.
  unfold py_index. destruct (list_index x l) as [i|] eqn:E; [|done].
  intros [= <-]. exists i. split; [done|by apply list_index_lookup].
Qed.

Lemma py_getitem_inv {A} (l : list A) (z : Z) (x : A) :
  0 <= z -> py_getitem l z = OK x -> l !! Z.to_nat z = Some x.
Proof.
  intros Hz. unfold py_getitem.
  destruct (Z.ltb_spec z 0) as [?|_]; [lia|].
  destruct (Z.ltb_spec z 0) as [?|_]; [lia|].
  destruct (l !! Z.to_nat z); [|done]. by intros [= ->].
Qed.

Lemma get_next_step_last (w : Wizard) (lst : string) (st : St) :
  wizard_wf w -> last (keyOrder (form_list w)) = Some lst ->
  get_next_step w (Some lst) st = OK (None, st).
Proof.
  intros [[Hnd _] _] Hl. unfold get_next_step. py_unfold.
  rewrite last_lookup in Hl.
  rewrite (py_index_NoDup _ _ _ Hnd Hl).
  assert (0 < length (keyOrder (form_list w)))%nat
    by (destruct (keyOrder (form_list w)); [done|simpl; lia]).
  destruct (Z.gtb_spec (Z.of_nat (length (keyOrder (form_list w))))
              (Z.of_nat (pred (length (keyOrder (form_list w)))) + 1));
    [lia|done].
Qed.

Lemma get_prev_step_first (w : Wizard) (first : string) (st : St) :
  wizard_wf w -> head (keyOrder (form_list w)) = Some first ->
  get_prev_step w (Some first) st = OK (None, st).
Proof.
  intros [[Hnd _] _] Hh. unfold get_prev_step. py_unfold.
  rewrite head_lookup in Hh.
  by rewrite (py_index_NoDup _ _ _ Hnd Hh).
Qed.

(** C4. For every configured wizard (its step list has length at least 1),
    [get_first_step] returns the first configured step name and
    [get_last_step] the last one, [get_next_step(get_last_step())] is [None]
    and [get_prev_step(get_first_step())] is [None]; none of the four calls
    raises or touches the storage.  The first key is the name of the first
    entry passed to [__init__], and when the names passed are distinct the
    keys are exactly those names in the order passed. *)
Theorem first_last_step_boundaries :
  forall cls sn entries dv il inl w st,
    FormWizard_init cls sn entries dv il inl = OK w ->
    exists first lst,
      head (sd_keys (form_list w)) = Some first /\
      last (sd_keys (form_list w)) = Some lst /\
      head (entry_keys 0 entries) = Some first /\
      (NoDup (entry_keys 0 entries) ->
       sd_keys (form_list w) = entry_keys 0 entries) /\
      get_first_step w = OK first /\
      get_last_step w = OK lst /\
      (l <~ lift (get_last_step w) ;; get_next_step w (Some l)) st
        = OK (None, st) /\
      (f <~ lift (get_first_step w) ;; get_prev_step w (Some f)) st
        = OK (None, st).
Proof.
  intros cls sn entries dv il inl w st Hinit.
  pose proof (FormWizard_init_wf _ _ _ _ _ _ _ Hinit) as Hwf.
  destruct (wizard_wf_first w Hwf) as (first & Hh & Hfirst).
  destruct (wizard_wf_last w Hwf) as (lst & Hl & Hlast).
  apply FormWizard_init_OK in Hinit as [Hne Hw].
  assert (keyOrder (form_list w) = first_appearances [] (entry_keys 0 entries))
    as Hkeys.
  { rewrite Hw. simpl. by rewrite init_form_list_keyOrder by apply sd_empty_wf. }
  exists first, lst. unfold sd_keys. split_and!; try done.
  - destruct entries as [|e rest]; [done|].
    rewrite Hkeys in Hh. simpl entry_keys in Hh.
    rewrite first_appearances_head in Hh. by simplify_eq.
  - intros Hnd. rewrite Hkeys. by apply (first_appearances_fresh []).
  - unfold bind at 1, lift at 1. rewrite Hlast. by apply get_next_step_last.
  - unfold bind at 1, lift at 1. rewrite Hfirst. by apply get_prev_step_first.
Qed.

(** C5. For a configured wizard and a step [s], whenever [get_next_step(s)]
    returns a step [n] (not [None]), [get_step_index(n)] is
    [get_step_index(s) + 1]. *)
Theorem next_step_index_succ :
  forall cls sn entries dv il inl w st s n st',
    FormWizard_init cls sn entries dv il inl = OK w ->
    get_next_step w (Some s) st = OK (Some n, st') ->
    exists i,
      get_step_index w (Some s) st = OK (i, st) /\
      get_step_index w (Some n) st = OK (i + 1, st).
Proof.
  intros cls sn entries dv il inl w st s n st' Hinit Hnext.
  destruct (FormWizard_init_wf _ _ _ _ _ _ _ Hinit) as [[Hnd _] _].
  unfold get_next_step, get_step_index in *. py_unfold.
  destruct (py_index (keyOrder (form_list w)) s) as [i|] eqn:Hi; [|done].
  exists i. split; [done|].
  destruct (py_index_inv _ _ _ Hi) as (j & -> & Hj).
  destruct (Z.of_nat (length (keyOrder (form_list w))) >? Z.of_nat j + 1);
    [|done].
  destruct (py_getitem (keyOrder (form_list w)) (Z.of_nat j + 1)) as [x|] eqn:Hx;
    [|done].
  simplify_eq. apply py_getitem_inv in Hx; [|lia].
  replace (Z.to_nat (Z.of_nat j + 1)) with (S j) in Hx by lia.
  rewrite (py_index_NoDup _ _ _ Hnd Hx). do 2 f_equal. lia.
Qed.

(** ** The current step *)

Lemma determine_step_effective (w : Wizard) (st : St) :
  wizard_wf w -> determine_step w st = OK (effective_step w (storage st), st).
Proof.
  intros Hwf. destruct (wizard_wf_first w Hwf) as (first & Hh & Hfirst).
  unfold determine_step, effective_step, py_or. py_unfold.
  rewrite Hh, Hfirst. simpl.
  destruct (current_step (storage st)) as [s|]; [|done].
  destruct (String.eqb_spec s ""); case_decide; done.
Qed.

Lemma effective_step_configured (w : Wizard) (s : Storage) :
  wizard_wf w ->
  (forall x, current_step s = Some x -> x <> "" -> x ∈ keyOrder (form_list w)) ->
  effective_step w s ∈ keyOrder (form_list w).
Proof.
  intros Hwf Hcur. destruct (wizard_wf_first w Hwf) as (first & Hh & _).
  assert (first ∈ keyOrder (form_list w)) as Hfirst.
  { rewrite head_lookup in Hh. by eapply list_elem_of_lookup_2. }
  unfold effective_step. rewrite Hh. simpl.
  destruct (current_step s) as [x|]; [|done].
  case_decide; [done|]. by apply Hcur.
Qed.

Lemma init_first_key cls sn entries dv il inl w (first : string) :
  FormWizard_init cls sn entries dv il inl = OK w ->
  head (keyOrder (form_list w)) = Some first ->
  head (entry_keys 0 entries) = Some first.
Proof.
  intros [Hne ->]%FormWizard_init_OK. simpl.
  rewrite init_form_list_keyOrder by apply sd_empty_wf.
  destruct entries as [|e rest]; [done|]. simpl entry_keys.
  by rewrite first_appearances_head.
Qed.

(** C8, as the code has it.  On a configured wizard [determine_step]
    returns the stored current step when one is stored and is not the empty
    string, and otherwise the first configured step, the head of the keys
    of [form_list], which is the name of the first entry passed to
    [__init__]; it never raises and leaves the state as it was, so two calls
    in a row return the same value. *)
Theorem determine_step_stored_or_first :
  forall cls sn entries dv il inl w st,
    FormWizard_init cls sn entries dv il inl = OK w ->
    exists first v,
      head (sd_keys (form_list w)) = Some first /\
      head (entry_keys 0 entries) = Some first /\
      get_first_step w = OK first /\
      v = match current_step (storage st) with
          | Some s => if decide (s = "") then first else s
          | None => first
          end /\
      determine_step w st = OK (v, st) /\
      (x <~ determine_step w ;; y <~ determine_step w ;; ret (x, y)) st
        = OK ((v, v), st).
Proof.
  intros cls sn entries dv il inl w st Hinit.
  pose proof (FormWizard_init_wf _ _ _ _ _ _ _ Hinit) as Hwf.
  destruct (wizard_wf_first w Hwf) as (first & Hh & Hfirst).
  pose proof (determine_step_effective w st Hwf) as Hd.
  exists first, (effective_step w (storage st)). split_and!; try done.
  - by eapply init_first_key.
  - unfold effective_step. by rewrite Hh.
  - unfold bind, ret. by rewrite !Hd.
Qed.

(** C10. When the storage returns [None] or the empty string as the current
    step, [determine_step] returns the first configured step, the head of
    the keys of [form_list] and the name of the first entry passed to
    [__init__], whether or not the empty string names a configured step. *)
Theorem determine_step_false_current_is_first :
  forall cls sn entries dv il inl w st,
    FormWizard_init cls sn entries dv il inl = OK w ->
    current_step (storage st) = None \/ current_step (storage st) = Some "" ->
    exists first,
      head (sd_keys (form_list w)) = Some first /\
      head (entry_keys 0 entries) = Some first /\
      get_first_step w = OK first /\
      storage_get_current_step st = OK (current_step (storage st), st) /\
      determine_step w st = OK (first, st).
Proof.
  intros cls sn entries dv il inl w st Hinit Hcur.
  pose proof (FormWizard_init_wf _ _ _ _ _ _ _ Hinit) as Hwf.
  destruct (wizard_wf_first w Hwf) as (first & Hh & Hfirst).
  exists first. split_and!; try done.
  - by eapply init_first_key.
  - rewrite determine_step_effective by done. unfold effective_step.
    rewrite Hh. by destruct Hcur as [-> | ->].
Qed.

(** ** Extra context *)

(** C9. [update_extra_context(patch)] reads the stored extra context, sets
    the keys of [patch] in it and writes the result back: afterwards a key
    of [patch] has [patch]'s value and any other key its stored value, and
    nothing else in the state has changed.  Starting from [{"x": 1}],
    updating with [{"y": 2}] gives [{"x": 1, "y": 2}], and updating then
    with [{"x": 3}] gives [{"x": 3, "y": 2}]. *)
Theorem update_extra_context_merges :
  forall (w : Wizard) (patch : gmap string PyVal) (st : St),
    (exists st',
       update_extra_context w patch st = OK (tt, st') /\
       (forall k v, patch !! k = Some v ->
                    extra_context (storage st') !! k = Some v) /\
       (forall k, patch !! k = None ->
                  extra_context (storage st') !! k
                  = extra_context (storage st) !! k) /\
       get_extra_context w st' = OK (dict_update (extra_context (storage st)) patch, st') /\
       current_step (storage st') = current_step (storage st) /\
       step_data (storage st') = step_data (storage st) /\
       world st' = world st) /\
    exists st2,
      (storage_set_extra_context_data {[ "x" := PyInt 1 ]} ;;;
       update_extra_context w {[ "y" := PyInt 2 ]} ;;;
       r1 <~ get_extra_context w ;;
       update_extra_context w {[ "x" := PyInt 3 ]} ;;;
       r2 <~ get_extra_context w ;;
       ret (r1, r2)) st
      = OK (({[ "x" := PyInt 1; "y" := PyInt 2 ]},
             {[ "x" := PyInt 3; "y" := PyInt 2 ]}), st2).
Proof.
  intros w patch st. split.
  - exists (mkSt (mkStorage (current_step (storage st)) (step_data (storage st))
                     (dict_update (extra_context (storage st)) patch))
                  (world st)).
    split; [reflexivity|]. simpl. split_and!; try done.
    + intros k v Hk. unfold dict_update. by apply lookup_union_Some_l.
    + intros k Hk. unfold dict_update. by apply lookup_union_r.
  - eexists. unfold update_extra_context, get_extra_context. py_unfold.
    simpl. reflexivity.
Qed.

(** ** Building and rendering forms *)

Lemma get_form_build (w : Wizard) (k : string)
    (data : option (gmap string string)) (st : St) :
  get_form w (Some k) data st
  = match dict (form_list w) !! k with
    | Some cls =>
        if is_ascii k then OK (build_form w k cls data, st)
        else Raise UnicodeEncodeError
    | None => Raise (KeyError k)
    end.
Proof.
  unfold get_form, get_form_prefix, sd_getitem, py_str. py_unfold.
  destruct (dict (form_list w) !! k); [|done]. by destruct (is_ascii k).
Qed.


Lemma ascii_steps_elem (w : Wizard) (k : string) :
  ascii_steps w = true -> k ∈ keyOrder (form_list w) -> is_ascii k = true.
Proof.
  unfold ascii_steps, sd_keys. intros Ha Hk.
  apply (proj1 (forallb_forall _ _) Ha). by apply list_elem_of_In.
Qed.

Lemma py_index_elem (l : list string) (x : string) :
  x ∈ l -> exists i, py_index l x = OK (Z.of_nat i) /\ l !! i = Some x.
Proof.
  intros [i Hi]%list_index_elem. exists i. unfold py_index. rewrite Hi.
  split; [done|by apply list_index_lookup].
Qed.

(** What holds of a wizard as [__init__] leaves it. *)
Section configured_wizard.

Variable w : Wizard.
Hypothesis Hwf : wizard_wf w.

Lemma stored_form_configured (s : Storage) (k : string) :
  k ∈ keyOrder (form_list w) -> is_Some (stored_form w s k).
Proof.
  destruct Hwf as [[_ Hdom] _]. intros Hk. apply Hdom in Hk as [cls Hcls].
  unfold stored_form. rewrite Hcls. simpl. eauto.
Qed.

Lemma step_or_current_effective (step : option string) (st : St) :
  step_or_current w step st
  = OK (default (effective_step w (storage st)) step, st).
Proof.
  destruct step as [s|]; simpl; [done|].
  by apply determine_step_effective.
Qed.

Lemma get_prev_step_total (step : option string) (st : St) :
  default (effective_step w (storage st)) step ∈ keyOrder (form_list w) ->
  exists p, get_prev_step w step st = OK (p, st).
Proof.
  intros Hin. unfold get_prev_step. unfold bind at 1.
  rewrite step_or_current_effective by done.
  destruct (py_index_elem _ _ Hin) as (i & Hi & Hl).
  unfold bind at 1, lift at 1. rewrite Hi.
  destruct (Z.ltb_spec (Z.of_nat i - 1) 0) as [?|Hge]; [by eexists|].
  destruct (lookup_lt_is_Some_2 (keyOrder (form_list w)) (Z.to_nat (Z.of_nat i - 1)))
    as [x Hx].
  { apply lookup_lt_Some in Hl. lia. }
  unfold bind, lift. rewrite (py_getitem_Z _ _ _ Hge Hx). by eexists.
Qed.

Lemma get_next_step_total (step : option string) (st : St) :
  default (effective_step w (storage st)) step ∈ keyOrder (form_list w) ->
  exists n, get_next_step w step st = OK (n, st).
Proof.
  intros Hin. unfold get_next_step. unfold bind at 1.
  rewrite step_or_current_effective by done.
  destruct (py_index_elem _ _ Hin) as (i & Hi & Hl).
  unfold bind at 1, lift at 1. rewrite Hi.
  destruct (Z.gtb_spec (Z.of_nat (length (keyOrder (form_list w))))
              (Z.of_nat i + 1)) as [Hlt|?]; [|by eexists].
  destruct (lookup_lt_is_Some_2 (keyOrder (form_list w))
              (Z.to_nat (Z.of_nat i + 1))) as [x Hx]; [lia|].
  assert (0 <= Z.of_nat i + 1) as Hz by lia.
  unfold bind, lift. rewrite (py_getitem_Z _ _ _ Hz Hx). by eexists.
Qed.

Lemma get_step_index_total (step : option string) (st : St) :
  default (effective_step w (storage st)) step ∈ keyOrder (form_list w) ->
  exists i, get_step_index w step st = OK (i, st).
Proof.
  intros Hin. unfold get_step_index. unfold bind.
  rewrite step_or_current_effective by done.
  destruct (py_index_elem _ _ Hin) as (i & Hi & Hl).
  unfold lift. rewrite Hi. by eexists.
Qed.

(** Rendering a form succeeds, and leaves the state alone, whenever the
    step the wizard works on is a configured one. *)
Lemma render_total (request : Request) (f : Form) (st : St) :
  effective_step w (storage st) ∈ keyOrder (form_list w) ->
  exists ctx,
    render w request f st = OK (TemplateResponse (get_template w) ctx, st) /\
    ctx_form ctx = f /\
    ctx_form_step ctx = effective_step w (storage st) /\
    ctx_extra_context ctx = extra_context (storage st).
Proof.
  intros Hin.
  destruct (wizard_wf_first w Hwf) as (first & _ & Hfirst).
  destruct (wizard_wf_last w Hwf) as (lst & _ & Hlast).
  destruct (get_prev_step_total None st Hin) as [p Hp].
  destruct (get_next_step_total None st Hin) as [n Hn].
  destruct (get_step_index_total None st Hin) as [i Hi].
  unfold render, render_template, get_extra_context.
  unfold bind, ret, storage_get_extra_context_data, read_storage.
  rewrite determine_step_effective by done.
  unfold lift. rewrite Hfirst, Hlast, Hp, Hn, Hi. cbv beta iota. rewrite Hi.
  eexists. split; [reflexivity|]. by simpl.
Qed.

End configured_wizard.

(** ** Finalisation: [render_done] *)

Lemma render_done_loop_cons (w : Wizard) (request : Request) (k : string)
    (keys : list string) (acc : list Form) (st : St) :
  render_done_loop w request (k :: keys) acc st
  = match stored_form w (storage st) k with
    | Some f =>
        if is_ascii k then
          if is_valid f
          then render_done_loop w request keys (acc ++ [f]) st
          else render_revalidation_failure w request k f st
        else Raise UnicodeEncodeError
    | None => Raise (KeyError k)
    end.
Proof.
  simpl. unfold bind at 1. unfold storage_get_step_data, read_storage.
  unfold bind at 1. rewrite get_form_build. unfold stored_form. simpl.
  destruct (dict (form_list w) !! k) as [cls|]; simpl; [|done].
  destruct (is_ascii k); [|done].
  by destruct (is_valid _).
Qed.

Lemma render_done_loop_valid (w : Wizard) (request : Request)
    (keys : list string) (st : St) :
  forall acc,
    (forall k, k ∈ keys -> is_ascii k = true) ->
    (forall k, k ∈ keys ->
       exists f, stored_form w (storage st) k = Some f /\ is_valid f = true) ->
    render_done_loop w request keys acc st
    = done w request (acc ++ omap (stored_form w (storage st)) keys) st.
Proof.
  induction keys as [|k keys IH]; intros acc Hascii Hall.
  - simpl. by rewrite app_nil_r.
  - rewrite render_done_loop_cons.
    destruct (Hall k) as (f & Hf & Hv); [by left|].
    rewrite Hf, Hv, (Hascii k) by (by left).
    rewrite IH; [|intros k' Hk'; apply Hascii; by right
                 |intros k' Hk'; apply Hall; by right].
    simpl. rewrite Hf. simpl. by rewrite <-app_assoc.
Qed.

Lemma render_done_loop_invalid (w : Wizard) (request : Request)
    (pre : list string) (k : string) (post : list string) (f : Form) (st : St) :
  forall acc,
    (forall k', k' ∈ pre ++ [k] -> is_ascii k' = true) ->
    (forall k', k' ∈ pre ->
       exists f', stored_form w (storage st) k' = Some f' /\ is_valid f' = true) ->
    stored_form w (storage st) k = Some f ->
    is_valid f = false ->
    render_done_loop w request (pre ++ k :: post) acc st
    = render_revalidation_failure w request k f st.
Proof.
  induction pre as [|k0 pre IH]; intros acc Hascii Hpre Hf Hv.
  - simpl app. rewrite render_done_loop_cons.
    rewrite Hf, Hv, (Hascii k); [done|]. by left.
  - simpl app. rewrite render_done_loop_cons.
    destruct (Hpre k0) as (f0 & Hf0 & Hv0); [by left|].
    rewrite Hf0, Hv0, (Hascii k0) by (by left). apply IH; [| |done..].
    + intros k' Hk'. apply Hascii. by right.
    + intros k' Hk'. apply Hpre. by right.
Qed.




(** ** Merged cleaned data: [get_all_cleaned_data] *)

Lemma is_valid_step_cleaned (w : Wizard) (s : Storage) (k : string) (f : Form) :
  stored_form w s k = Some f -> step_cleaned w s k = form_clean f.
Proof. intros Hf. unfold step_cleaned. by rewrite Hf. Qed.

Lemma get_all_cleaned_data_loop_cons (w : Wizard) (k : string)
    (keys : list string) (acc : gmap string PyVal) (st : St) :
  is_Some (stored_form w (storage st) k) ->
  is_ascii k = true ->
  get_all_cleaned_data_loop w (k :: keys) acc st
  = get_all_cleaned_data_loop w keys
      (match step_cleaned w (storage st) k with
       | Some c => dict_update acc (contribution k c)
       | None => acc
       end) st.
Proof.
  intros [f Hf] Ha. rewrite (is_valid_step_cleaned _ _ _ _ Hf).
  simpl. unfold bind at 1. unfold storage_get_step_data, read_storage.
  unfold bind at 1. rewrite get_form_build, Ha.
  unfold stored_form in Hf. simpl.
  destruct (dict (form_list w) !! k) as [cls|]; simpl in *; [|done].
  injection Hf as <-. unfold is_valid, cleaned_data.
  destruct (form_clean _) as [c|] eqn:Hc.
  - rewrite bool_decide_eq_true_2 by eauto. unfold bind, lift. by destruct c.
  - rewrite bool_decide_eq_false_2; [done|]. by intros [? ?].
Qed.

Lemma get_all_cleaned_data_loop_merge (w : Wizard) (keys : list string)
    (st : St) :
  forall acc,
    (forall k, k ∈ keys ->
       is_Some (stored_form w (storage st) k) /\ is_ascii k = true) ->
    get_all_cleaned_data_loop w keys acc st
    = OK (merge_steps w (storage st) acc keys, st).
Proof.
  induction keys as [|k keys IH]; intros acc Hall; [done|].
  destruct (Hall k) as [Hf Ha]; [by left|].
  rewrite get_all_cleaned_data_loop_cons by done.
  rewrite IH by (intros k' Hk'; apply Hall; by right). done.
Qed.





(** ** Request dispatch: [_process_request] *)

Lemma get_form_current (w : Wizard) (data : option (gmap string string))
    (st : St) :
  wizard_wf w ->
  get_form w None data st
  = match dict (form_list w) !! effective_step w (storage st) with
    | Some cls =>
        if is_ascii (effective_step w (storage st))
        then OK (build_form w (effective_step w (storage st)) cls data, st)
        else Raise UnicodeEncodeError
    | None => Raise (KeyError (effective_step w (storage st)))
    end.
Proof.
  intros Hwf. unfold get_form. unfold bind at 1.
  rewrite (step_or_current_effective w Hwf None st). simpl.
  unfold get_form_prefix, sd_getitem, py_str. py_unfold.
  destruct (dict (form_list w) !! _); [|done]. by destruct (is_ascii _).
Qed.

Lemma render_backward_configured (w : Wizard) (request : Request)
    (prev : string) (st : St) :
  wizard_wf w ->
  POST request !! "form_prev_step" = Some prev ->
  prev ∈ keyOrder (form_list w) ->
  prev <> "" ->
  is_ascii prev = true ->
  exists f ctx,
    stored_form w (storage st) prev = Some f /\
    render_backward w request st
    = OK (TemplateResponse (get_template w) ctx, at_step (Some prev) st) /\
    ctx_form ctx = f /\
    ctx_form_step ctx = prev.
Proof.
  intros Hwf Hpost Hin Hne Hascii.
  destruct (stored_form_configured w Hwf (storage st) prev Hin) as [f Hf].
  assert (effective_step w (storage (at_step (Some prev) st)) = prev) as Heff.
  { unfold effective_step. simpl. by rewrite decide_False. }
  destruct (render_total w Hwf request f (at_step (Some prev) st))
    as (ctx & Hr & Hform & Hstep & _).
  { by rewrite Heff. }
  exists f, ctx. split_and!; try done; [|by rewrite Hstep, Heff].
  unfold render_backward, post_getitem. rewrite Hpost.
  unfold bind at 1, ret at 1.
  unfold bind at 1, storage_set_current_step, with_storage.
  change (mkSt _ _) with (at_step (Some prev) st).
  unfold bind at 1. rewrite determine_step_effective by done. rewrite Heff.
  unfold bind at 1, storage_get_step_data, read_storage. simpl mbind.
  unfold bind at 1. rewrite get_form_current by done. rewrite Heff, Hascii.
  unfold stored_form in Hf. simpl in *.
  destruct (dict (form_list w) !! prev) as [cls|]; simpl in *; [|done].
  injection Hf as <-. exact Hr.
Qed.


(** After [reset_wizard], on the storage as the spec describes it, the
    current step is the first step and no step has stored data. *)
Lemma reset_wizard_clears (w : Wizard) (st : St) :
  wizard_wf w ->
  exists first,
    get_first_step w = OK first /\
    (reset_wizard w ;;; determine_step w) st
    = OK (first, mkSt empty_storage (world st)) /\
    forall k, (reset_wizard w ;;; storage_get_step_data (Some k)) st
              = OK (None, mkSt empty_storage (world st)).
Proof.
  intros Hwf. destruct (wizard_wf_first w Hwf) as (first & Hh & Hfirst).
  exists first. split_and!; [done| |].
  - unfold bind, reset_wizard, storage_reset, with_storage.
    rewrite determine_step_effective by done.
    unfold effective_step. simpl. by rewrite Hh.
  - intros k. unfold bind, reset_wizard, storage_reset, with_storage,
      storage_get_step_data, read_storage. simpl. by rewrite lookup_empty.
Qed.

(** C3, what the code does.  For a wizard of any of the three classes of
    [forms.py], a GET request makes [_process_request] call
    [wizard.process_reset()], a method none of the classes has: the call
    raises [AttributeError]; nothing is reset and nothing is rendered. *)
Theorem process_request_get_raises :
  forall cls sn entries dv il inl w request (views : gmap string StepView) st,
    cls = FormWizard \/ cls = SessionFormWizard \/ cls = CookieFormWizard ->
    FormWizard_init cls sn entries dv il inl = OK w ->
    method request = "GET" ->
    _process_request request w views st = Raise (AttributeError "process_reset").
Proof.
  intros cls sn entries dv il inl w request views st Hcls Hinit Hm.
  apply FormWizard_init_OK in Hinit as [_ ->].
  unfold _process_request, call_process_reset. rewrite Hm. simpl.
  by destruct Hcls as [-> | [-> | ->]].
Qed.

(** ** Configuration: [__init__] *)

(** C2, as the code has it.  With an empty [form_list] [__init__] fails, on
    its assertion.  Two entries with the same step name are not rejected:
    whenever [__init__] returns a wizard, each name passed is a key once, in
    the order of first appearance, and stands for the form class of its last
    appearance; and passing one more entry under a name already passed is
    accepted too, leaves the keys as they were and puts the new form class
    in the place of the old. *)
Theorem init_empty_fails_duplicates_merge :
  forall cls sn dv il inl,
    FormWizard_init cls sn [] dv il inl
    = Raise (AssertionError "at least one form is needed") /\
    forall entries w,
      FormWizard_init cls sn entries dv il inl = OK w ->
      NoDup (sd_keys (form_list w)) /\
      (forall k, k ∈ sd_keys (form_list w) <-> k ∈ entry_keys 0 entries) /\
      sd_keys (form_list w) = first_appearances [] (entry_keys 0 entries) /\
      dict (form_list w) = list_to_map (reverse (entry_pairs 0 entries)) /\
      forall k f,
        k ∈ entry_keys 0 entries ->
        exists w',
          FormWizard_init cls sn (entries ++ [Named k f]) dv il inl = OK w' /\
          sd_keys (form_list w') = sd_keys (form_list w) /\
          dict (form_list w') = <[k := f]> (dict (form_list w)).
Proof.
  intros cls sn dv il inl. split; [done|]. intros entries w Hinit.
  destruct (FormWizard_init_wf _ _ _ _ _ _ _ Hinit) as [[Hnd Hdom] _].
  apply FormWizard_init_OK in Hinit as [Hne ->].
  assert (keyOrder (init_form_list 0 entries sd_empty)
          = first_appearances [] (entry_keys 0 entries)) as Hkeys
    by (by rewrite init_form_list_keyOrder by apply sd_empty_wf).
  assert (forall k, k ∈ keyOrder (init_form_list 0 entries sd_empty)
                    <-> k ∈ entry_keys 0 entries) as Helem.
  { intros k. rewrite Hkeys, first_appearances_elem, elem_of_nil. naive_solver. }
  unfold sd_keys. simpl in *. split_and!; try done.
  - rewrite init_form_list_dict. simpl. by rewrite (right_id_L ∅ (∪)).
  - intros k f Hk.
    exists (mkWizard cls (init_form_list 0 (entries ++ [Named k f]) sd_empty)
                     sn dv il inl).
    rewrite init_form_list_snoc. simpl. split_and!.
    + unfold FormWizard_init. destruct entries; [done|]. simpl.
      by rewrite init_form_list_snoc.
    + assert (sd_has_key (init_form_list 0 entries sd_empty) k = true) as ->;
        [|done].
      apply sd_has_key_spec; [|by apply Helem].
      apply init_form_list_wf, sd_empty_wf.
    + done.
Qed.

(** ** The theorems at concrete wizards *)

Lemma first_last_step_boundaries_abc :
  FormWizard_init FormWizard session_storage abc_entries (Some record_done) ∅ ∅
  = OK abc_wizard /\
  exists first lst,
    head (sd_keys (form_list abc_wizard)) = Some first /\
    last (sd_keys (form_list abc_wizard)) = Some lst /\
    get_first_step abc_wizard = OK first /\
    get_last_step abc_wizard = OK lst /\
    get_next_step abc_wizard (Some lst) fresh_state = OK (None, fresh_state) /\
    get_prev_step abc_wizard (Some first) fresh_state = OK (None, fresh_state).
Proof.
  split; [reflexivity|].
  destruct (first_last_step_boundaries FormWizard session_storage abc_entries
              (Some record_done) ∅ ∅ abc_wizard fresh_state eq_refl)
    as (first & lst & Hh & Hl & _ & _ & Hf & Hlst & Hn & Hp).
  exists first, lst. unfold bind at 1, lift at 1 in Hn. rewrite Hlst in Hn.
  unfold bind at 1, lift at 1 in Hp. rewrite Hf in Hp.
  repeat split; assumption.
Defined.

Lemma next_step_index_succ_abc :
  get_next_step abc_wizard (Some "a") fresh_state = OK (Some "b", fresh_state) /\
  exists i,
    get_step_index abc_wizard (Some "a") fresh_state = OK (i, fresh_state) /\
    get_step_index abc_wizard (Some "b") fresh_state = OK (i + 1, fresh_state).
Proof.
  assert (get_next_step abc_wizard (Some "a") fresh_state
          = OK (Some "b", fresh_state)) as Hnext by (vm_compute; reflexivity).
  split; [exact Hnext|].
  exact (next_step_index_succ FormWizard session_storage abc_entries
           (Some record_done) ∅ ∅ abc_wizard fresh_state "a" "b" fresh_state
           eq_refl Hnext).
Defined.

Lemma determine_step_stored_or_first_abc :
  FormWizard_init FormWizard session_storage abc_entries (Some record_done) ∅ ∅
  = OK abc_wizard /\
  head (sd_keys (form_list abc_wizard)) = Some "a" /\
  current_step (storage abc_filled) = Some "c" /\
  determine_step abc_wizard abc_filled = OK ("c", abc_filled) /\
  current_step (storage fresh_state) = None /\
  determine_step abc_wizard fresh_state = OK ("a", fresh_state).
Proof.
  assert (head (sd_keys (form_list abc_wizard)) = Some "a") as Ha
    by (vm_compute; reflexivity).
  split; [reflexivity|]. split; [exact Ha|]. split; [reflexivity|].
  destruct (determine_step_stored_or_first FormWizard session_storage
              abc_entries (Some record_done) ∅ ∅ abc_wizard abc_filled eq_refl)
    as (first & v & Hh & _ & _ & Hv & Hd & _).
  destruct (determine_step_stored_or_first FormWizard session_storage
              abc_entries (Some record_done) ∅ ∅ abc_wizard fresh_state eq_refl)
    as (first' & v' & Hh' & _ & _ & Hv' & Hd' & _).
  rewrite Ha in Hh, Hh'. injection Hh as <-. injection Hh' as <-.
  simpl in Hv, Hv'. rewrite Hv in Hd. rewrite Hv' in Hd'.
  split; [exact Hd|]. split; [reflexivity|exact Hd'].
Defined.

Lemma determine_step_false_current_is_first_blank :
  current_step (storage blank_current) = Some "" /\
  sd_has_key (form_list blank_wizard) "" = true /\
  head (sd_keys (form_list blank_wizard)) = Some "a" /\
  determine_step blank_wizard blank_current = OK ("a", blank_current).
Proof.
  assert (head (sd_keys (form_list blank_wizard)) = Some "a") as Ha
    by (vm_compute; reflexivity).
  split; [reflexivity|]. split; [vm_compute; reflexivity|]. split; [exact Ha|].
  destruct (determine_step_false_current_is_first FormWizard session_storage
              blank_entries None ∅ ∅ blank_wizard blank_current eq_refl
              (or_intror eq_refl)) as (first & Hh & _ & _ & _ & Hd).
  rewrite Ha in Hh. injection Hh as <-. exact Hd.
Defined.

Lemma process_request_get_raises_session :
  FormWizard_init SessionFormWizard session_storage abc_entries None ∅ ∅
  = OK (mkWizard SessionFormWizard (init_form_list 0 abc_entries sd_empty)
                 session_storage None ∅ ∅) /\
  method get_request = "GET" /\
  _process_request get_request
    (mkWizard SessionFormWizard (init_form_list 0 abc_entries sd_empty)
              session_storage None ∅ ∅)
    {[ "default" := echo_view ]} abc_filled
  = Raise (AttributeError "process_reset").
Proof.
  split; [reflexivity|]. split; [reflexivity|].
  exact (process_request_get_raises SessionFormWizard session_storage
           abc_entries None ∅ ∅ _ get_request {[ "default" := echo_view ]}
           abc_filled (or_intror (or_introl eq_refl)) eq_refl eq_refl).
Defined.

Lemma init_empty_fails_duplicates_merge_twin :
  "a" ∈ entry_keys 0 [Named "a" (required_text_form "x")] /\
  exists w w',
    FormWizard_init FormWizard session_storage
      [Named "a" (required_text_form "x")] None ∅ ∅ = OK w /\
    FormWizard_init FormWizard session_storage twin_entries None ∅ ∅ = OK w' /\
    sd_keys (form_list w') = sd_keys (form_list w) /\
    dict (form_list w')
    = <["a" := required_text_form "y"]> (dict (form_list w)).
Proof.
  assert ("a" ∈ entry_keys 0 [Named "a" (required_text_form "x")]) as Ha
    by (simpl; left).
  split; [exact Ha|].
  destruct (proj2 (init_empty_fails_duplicates_merge FormWizard session_storage
                     None ∅ ∅)
              [Named "a" (required_text_form "x")] _ eq_refl)
    as (_ & _ & _ & _ & Hdup).
  destruct (Hdup "a" (required_text_form "y") Ha) as (w' & Hinit & Hk & Hd).
  eexists _, w'. split; [reflexivity|]. split; [exact Hinit|].
  split; [exact Hk|exact Hd].
Defined.

Lemma abc_ascii : ascii_steps abc_wizard = true.
Proof. vm_compute. reflexivity. Defined.





(** ** Where the code departs from the specification *)

(** Two entries named "a" are accepted: [__init__] returns a wizard with
    the single step "a", bound to the second form class. *)
Lemma init_accepts_twin_steps :
  entry_keys 0 twin_entries = ["a"; "a"] /\
  ~ (exists e, FormWizard_init FormWizard session_storage twin_entries None ∅ ∅
               = Raise e) /\
  exists w,
    FormWizard_init FormWizard session_storage twin_entries None ∅ ∅ = OK w /\
    sd_keys (form_list w) = ["a"] /\
    fc_name <$> dict (form_list w) !! "a" = Some "RequiredTextForm".
Proof.
  split; [reflexivity|]. split.
  - intros [e He]. discriminate He.
  - eexists. split; [reflexivity|]. split; vm_compute; reflexivity.
Qed.

(** With the configured step named by the empty string stored as current
    step, [determine_step] does not return it: it returns "a". *)
Lemma determine_step_skips_blank_step :
  FormWizard_init FormWizard session_storage blank_entries None ∅ ∅
  = OK blank_wizard /\
  sd_has_key (form_list blank_wizard) "" = true /\
  storage_get_current_step blank_current = OK (Some "", blank_current) /\
  determine_step blank_wizard blank_current = OK ("a", blank_current) /\
  determine_step blank_wizard blank_current <> OK ("", blank_current).
Proof.
  split; [reflexivity|]. split; [vm_compute; reflexivity|].
  split; [reflexivity|].
  assert (determine_step blank_wizard blank_current = OK ("a", blank_current))
    as Hd by (vm_compute; reflexivity).
  split; [exact Hd|]. rewrite Hd. discriminate.
Qed.




(** * Further properties of the code *)

(** ** Positions, neighbours and the number of steps *)

Lemma get_next_step_at (w : Wizard) (i : nat) (s : string) (st : St) :
  NoDup (keyOrder (form_list w)) ->
  keyOrder (form_list w) !! i = Some s ->
  get_next_step w (Some s) st = OK (keyOrder (form_list w) !! S i, st).
Proof.
  intros Hnd Hi. unfold get_next_step. py_unfold.
  rewrite (py_index_NoDup _ _ _ Hnd Hi).
  destruct (Z.gtb_spec (Z.of_nat (length (keyOrder (form_list w))))
              (Z.of_nat i + 1)) as [Hlt|Hge].
  - destruct (lookup_lt_is_Some_2 (keyOrder (form_list w)) (S i)) as [x Hx];
      [lia|].
    replace (Z.of_nat i + 1) with (Z.of_nat (S i)) by lia.
    by rewrite (py_getitem_nat _ _ _ Hx), Hx.
  - rewrite lookup_ge_None_2; [done|lia].
Qed.

Lemma get_prev_step_at (w : Wizard) (i : nat) (s : string) (st : St) :
  NoDup (keyOrder (form_list w)) ->
  keyOrder (form_list w) !! i = Some s ->
  get_prev_step w (Some s) st
  = OK (match i with
        | O => None
        | S j => keyOrder (form_list w) !! j
        end, st).
Proof.
  intros Hnd Hi. unfold get_prev_step. py_unfold.
  rewrite (py_index_NoDup _ _ _ Hnd Hi).
  destruct i as [|j]; [done|].
  destruct (Z.ltb_spec (Z.of_nat (S j) - 1) 0) as [?|_]; [lia|].
  destruct (lookup_lt_is_Some_2 (keyOrder (form_list w)) j) as [x Hx].
  { apply lookup_lt_Some in Hi. lia. }
  replace (Z.of_nat (S j) - 1) with (Z.of_nat j) by lia.
  by rewrite (py_getitem_nat _ _ _ Hx), Hx.
Qed.

Lemma get_next_step_position (w : Wizard) (s : string) (st : St) x :
  get_next_step w (Some s) st = OK x ->
  exists i : nat, keyOrder (form_list w) !! i = Some s.
Proof.
  unfold get_next_step. py_unfold.
  destruct (py_index (keyOrder (form_list w)) s) as [z|] eqn:Hz; [|done].
  destruct (py_index_inv _ _ _ Hz) as (i & _ & Hi). eauto.
Qed.

Lemma get_prev_step_position (w : Wizard) (s : string) (st : St) x :
  get_prev_step w (Some s) st = OK x ->
  exists i : nat, keyOrder (form_list w) !! i = Some s.
Proof.
  unfold get_prev_step. py_unfold.
  destruct (py_index (keyOrder (form_list w)) s) as [z|] eqn:Hz; [|done].
  destruct (py_index_inv _ _ _ Hz) as (i & _ & Hi). eauto.
Qed.

(** X1. On a configured wizard the step at position [i] of the configured
    order has index [i], its next step is the step at position [i + 1]
    ([None] past the end) and its previous step the one at position [i - 1]
    ([None] before the start); the three calls leave the state alone. *)
Theorem step_adjacency_by_position :
  forall cls sn entries dv il inl w st (i : nat) s,
    FormWizard_init cls sn entries dv il inl = OK w ->
    sd_keys (form_list w) !! i = Some s ->
    get_step_index w (Some s) st = OK (Z.of_nat i, st) /\
    get_next_step w (Some s) st = OK (sd_keys (form_list w) !! S i, st) /\
    get_prev_step w (Some s) st
    = OK (match i with
          | O => None
          | S j => sd_keys (form_list w) !! j
          end, st).
Proof.
  intros cls sn entries dv il inl w st i s Hinit Hi.
  destruct (FormWizard_init_wf _ _ _ _ _ _ _ Hinit) as [[Hnd _] _].
  unfold sd_keys in *. split_and!.
  - unfold get_step_index. py_unfold. by rewrite (py_index_NoDup _ _ _ Hnd Hi).
  - by apply get_next_step_at.
  - by apply get_prev_step_at.
Qed.

(** X2. On a configured wizard [get_prev_step] undoes [get_next_step] and
    the other way round: if the next step of [s] is [n] then the previous
    step of [n] is [s], and if the previous step of [s] is [p] then the next
    step of [p] is [s]. *)
Theorem next_prev_inverse :
  forall cls sn entries dv il inl w st s,
    FormWizard_init cls sn entries dv il inl = OK w ->
    (forall n st', get_next_step w (Some s) st = OK (Some n, st') ->
                   get_prev_step w (Some n) st = OK (Some s, st)) /\
    (forall p st', get_prev_step w (Some s) st = OK (Some p, st') ->
                   get_next_step w (Some p) st = OK (Some s, st)).
Proof.
  intros cls sn entries dv il inl w st s Hinit.
  destruct (FormWizard_init_wf _ _ _ _ _ _ _ Hinit) as [[Hnd _] _].
  split.
  - intros n st' Hn.
    destruct (get_next_step_position _ _ _ _ Hn) as [i Hi].
    rewrite (get_next_step_at w i s st Hnd Hi) in Hn.
    injection Hn as Hn _.
    rewrite (get_prev_step_at w (S i) n st Hnd Hn). by rewrite Hi.
  - intros p st' Hp.
    destruct (get_prev_step_position _ _ _ _ Hp) as [i Hi].
    rewrite (get_prev_step_at w i s st Hnd Hi) in Hp.
    destruct i as [|j]; [done|]. injection Hp as Hp _.
    rewrite (get_next_step_at w j p st Hnd Hp). by rewrite Hi.
Qed.

(** X3. A step name that is not configured is an error for the step
    arithmetic and for form building: [get_step_index], [get_next_step] and
    [get_prev_step] raise [ValueError] and [get_form] raises [KeyError];
    [get_cleaned_data_for_step] alone answers [None]. *)
Theorem unknown_step_raises :
  forall cls sn entries dv il inl w (s : string) data (st : St),
    FormWizard_init cls sn entries dv il inl = OK w ->
    s ∉ sd_keys (form_list w) ->
    get_step_index w (Some s) st = Raise ValueError /\
    get_next_step w (Some s) st = Raise ValueError /\
    get_prev_step w (Some s) st = Raise ValueError /\
    get_form w (Some s) data st = Raise (KeyError s) /\
    get_cleaned_data_for_step w s st = OK (None, st).
Proof.
  intros cls sn entries dv il inl w s data st Hinit Hs.
  destruct (FormWizard_init_wf _ _ _ _ _ _ _ Hinit) as [Hwf _].
  unfold sd_keys in Hs.
  assert (py_index (keyOrder (form_list w)) s = Raise ValueError) as Hidx.
  { unfold py_index. by rewrite list_index_None. }
  assert (dict (form_list w) !! s = None) as Hd.
  { destruct Hwf as [_ Hdom]. apply eq_None_not_Some. by rewrite <-Hdom. }
  split_and!.
  - unfold get_step_index. py_unfold. by rewrite Hidx.
  - unfold get_next_step. py_unfold. by rewrite Hidx.
  - unfold get_prev_step. py_unfold. by rewrite Hidx.
  - by rewrite get_form_build, Hd.
  - unfold get_cleaned_data_for_step, sd_has_key. rewrite Hd.
    rewrite bool_decide_eq_false_2; [done|]. by intros [? ?].
Qed.

Lemma sd_wf_len {V} (sd : SortedDict V) :
  sd_wf sd -> sd_len sd = length (keyOrder sd).
Proof.
  intros [Hnd Hdom]. unfold sd_len.
  rewrite <-size_dom.
  assert (dom (dict sd) = list_to_set (keyOrder sd)) as ->.
  { apply set_eq. intros k.
    by rewrite elem_of_dom, elem_of_list_to_set, Hdom. }
  by apply size_list_to_set.
Qed.

Lemma first_appearances_NoDup (seen ks : list string) :
  NoDup seen -> NoDup (first_appearances seen ks).
Proof.
  revert seen; induction ks as [|k ks IH]; intros seen Hnd; simpl; [done|].
  apply IH. destruct (decide (k ∈ seen)) as [Hin|Hin]; [done|].
  apply NoDup_app. split_and!; [done| |apply NoDup_singleton].
  by intros x Hx ->%list_elem_of_singleton.
Qed.

Lemma first_appearances_length (seen ks : list string) :
  (length (first_appearances seen ks) <= length seen + length ks)%nat.
Proof.
  revert seen; induction ks as [|k ks IH]; intros seen; simpl; [lia|].
  destruct (decide (k ∈ seen)) as [Hin|Hin].
  - specialize (IH seen). lia.
  - specialize (IH (seen ++ [k])). rewrite length_app in IH. simpl in IH. lia.
Qed.

Lemma entry_keys_length (i : nat) (entries : list FormEntry) :
  length (entry_keys i entries) = length entries.
Proof.
  revert i; induction entries as [|e rest IH]; intros i; simpl; [done|].
  by rewrite IH.
Qed.

(** X4. On a configured wizard [num_steps] is the number of keys of
    [form_list], that is the number of distinct step names configured: at
    least one, at most the number of entries passed to [__init__], and
    exactly that number if and only if the names passed are distinct.  The
    index of every configured step lies in [0, num_steps). *)
Theorem num_steps_counts_distinct_names :
  forall cls sn entries dv il inl w st,
    FormWizard_init cls sn entries dv il inl = OK w ->
    num_steps w = length (sd_keys (form_list w)) /\
    (1 <= num_steps w)%nat /\
    (num_steps w <= length entries)%nat /\
    (num_steps w = length entries <-> NoDup (entry_keys 0 entries)) /\
    (forall s, s ∈ sd_keys (form_list w) ->
       exists i, get_step_index w (Some s) st = OK (i, st) /\
                 0 <= i /\ i < Z.of_nat (num_steps w)).
Proof.
  intros cls sn entries dv il inl w st Hinit.
  pose proof (FormWizard_init_wf _ _ _ _ _ _ _ Hinit) as [Hwf Hne].
  assert (num_steps w = length (keyOrder (form_list w))) as Hlen
    by (by apply sd_wf_len).
  apply FormWizard_init_OK in Hinit as [_ Hw].
  assert (keyOrder (form_list w) = first_appearances [] (entry_keys 0 entries))
    as Hkeys.
  { rewrite Hw. simpl. by rewrite init_form_list_keyOrder by apply sd_empty_wf. }
  unfold sd_keys. split_and!.
  - done.
  - rewrite Hlen. destruct (keyOrder (form_list w)); [done|simpl; lia].
  - rewrite Hlen, Hkeys.
    pose proof (first_appearances_length [] (entry_keys 0 entries)) as Hl.
    rewrite entry_keys_length in Hl. simpl in Hl. lia.
  - rewrite Hlen, Hkeys. split.
    + intros Hl. rewrite <-(entry_keys_length 0) in Hl.
      apply NoDup_ListNoDup.
      eapply (NoDup_incl_NoDup (l := first_appearances [] (entry_keys 0 entries))).
      * apply NoDup_ListNoDup, first_appearances_NoDup. constructor.
      * lia.
      * intros x Hx. apply list_elem_of_In. apply list_elem_of_In in Hx.
        apply first_appearances_elem in Hx as [Hx|Hx]; [|done].
        by apply elem_of_nil in Hx.
    + intros Hnd. rewrite (first_appearances_fresh []) by done.
      simpl. apply entry_keys_length.
  - intros s Hs. destruct (py_index_elem _ _ Hs) as (i & Hi & Hl).
    exists (Z.of_nat i). unfold get_step_index. py_unfold. rewrite Hi.
    split; [done|]. apply lookup_lt_Some in Hl. lia.
Qed.

Lemma entry_keys_bare (i : nat) (entries : list FormEntry) :
  Forall (fun e => exists cls, e = Bare cls) entries ->
  entry_keys i entries = unicode_of_nat <$> seq i (length entries).
Proof.
  revert i; induction entries as [|e rest IH]; intros i Hb; simpl; [done|].
  apply Forall_cons in Hb as [[cls ->] Hb]. simpl. f_equal. by apply IH.
Qed.

Lemma entry_pairs_fst (i : nat) (entries : list FormEntry) :
  (entry_pairs i entries).*1 = entry_keys i entries.
Proof.
  revert i; induction entries as [|e rest IH]; intros i; simpl; [done|].
  by rewrite IH.
Qed.

Lemma entry_pairs_lookup (j i : nat) (entries : list FormEntry) (e : FormEntry) :
  entries !! i = Some e ->
  (entry_key (j + i) e, entry_form e) ∈ entry_pairs j entries.
Proof.
  revert j i; induction entries as [|e0 rest IH]; intros j i Hi; [done|].
  destruct i as [|i]; simpl in *.
  - injection Hi as <-. rewrite Nat.add_0_r. by left.
  - right. replace (j + S i)%nat with (S j + i)%nat by lia. by apply IH.
Qed.

(** X5. When every entry passed to [__init__] is a bare form class, the
    steps are named by the decimal numerals of their positions, ["0"],
    ["1"], ..., in that order; no two entries collide, and the name of a
    position stands for the form class passed at that position. *)
Theorem bare_forms_keyed_by_position :
  forall cls sn entries dv il inl w,
    FormWizard_init cls sn entries dv il inl = OK w ->
    Forall (fun e => exists f, e = Bare f) entries ->
    sd_keys (form_list w) = unicode_of_nat <$> seq 0 (length entries) /\
    num_steps w = length entries /\
    forall (i : nat) e,
      entries !! i = Some e ->
      sd_getitem (form_list w) (unicode_of_nat i) = OK (entry_form e).
Proof.
  intros cls sn entries dv il inl w Hinit Hbare.
  pose proof (FormWizard_init_wf _ _ _ _ _ _ _ Hinit) as [Hwf Hne].
  pose proof (entry_keys_bare 0 entries Hbare) as Hek.
  assert (NoDup (entry_keys 0 entries)) as Hnd.
  { rewrite Hek. apply NoDup_fmap; [apply pretty_nat_inj|apply NoDup_seq]. }
  apply FormWizard_init_OK in Hinit as [_ Hw].
  assert (keyOrder (form_list w) = entry_keys 0 entries) as Hkeys.
  { rewrite Hw. simpl. rewrite init_form_list_keyOrder by apply sd_empty_wf.
    by apply (first_appearances_fresh []). }
  split_and!.
  - unfold sd_keys. by rewrite Hkeys.
  - unfold num_steps. rewrite sd_wf_len by done.
    by rewrite Hkeys, entry_keys_length.
  - intros i e Hi. unfold sd_getitem. rewrite Hw. simpl.
    rewrite init_form_list_dict. simpl. rewrite (right_id_L ∅ (∪)).
    pose proof (entry_pairs_lookup 0 i entries e Hi) as Hin. simpl in Hin.
    assert (entry_key i e = unicode_of_nat i) as Hkey.
    { eapply Forall_lookup_1 in Hbare as [f ->]; [|exact Hi]. done. }
    rewrite Hkey in Hin.
    erewrite (elem_of_list_to_map_1 (reverse (entry_pairs 0 entries))); [done| |].
    + by rewrite fmap_reverse, reverse_Permutation, entry_pairs_fst.
    + by apply elem_of_reverse.
Qed.

(** ** Cleaned data of one step *)

Lemma get_cleaned_data_for_step_cleaned (w : Wizard) (k : string) (st : St) :
  get_cleaned_data_for_step w k st
  = match dict (form_list w) !! k with
    | Some _ =>
        if is_ascii k then OK (step_cleaned w (storage st) k, st)
        else Raise UnicodeEncodeError
    | None => OK (None, st)
    end.
Proof.
  unfold get_cleaned_data_for_step, sd_has_key, step_cleaned, stored_form.
  destruct (dict (form_list w) !! k) as [cls|] eqn:Hcls.
  - rewrite bool_decide_eq_true_2 by eauto.
    unfold bind at 1. unfold storage_get_step_data, read_storage.
    unfold bind at 1. rewrite get_form_build, Hcls. simpl.
    destruct (is_ascii k); [|done].
    unfold is_valid, cleaned_data.
    destruct (form_clean _) as [c|] eqn:Hc.
    + rewrite bool_decide_eq_true_2 by eauto. done.
    + rewrite bool_decide_eq_false_2; [done|]. by intros [? ?].
  - rewrite bool_decide_eq_false_2; [done|]. by intros [? ?].
Qed.

Lemma get_cleaned_data_for_step_Some (w : Wizard) (k : string) (st st' : St) c :
  get_cleaned_data_for_step w k st = OK (Some c, st') ->
  step_cleaned w (storage st) k = Some c /\ is_ascii k = true.
Proof.
  rewrite get_cleaned_data_for_step_cleaned.
  destruct (dict (form_list w) !! k); [|done].
  destruct (is_ascii k); [|done]. by intros [= -> _].
Qed.

Lemma get_cleaned_data_for_step_None (w : Wizard) (k : string) (st st' : St) :
  is_Some (dict (form_list w) !! k) ->
  get_cleaned_data_for_step w k st = OK (None, st') ->
  step_cleaned w (storage st) k = None /\ is_ascii k = true.
Proof.
  intros [cls Hcls]. rewrite get_cleaned_data_for_step_cleaned, Hcls.
  destruct (is_ascii k); [|done]. by intros [= -> _].
Qed.

(** X6. The three outcomes of [get_cleaned_data_for_step], none of which
    changes the state.  For a step that is not configured it returns
    [None].  For a configured step whose name is not ASCII it raises
    [UnicodeEncodeError], whatever is stored.  For a configured step with an
    ASCII name it returns what the step's form class, given the step name as
    prefix and the step's initial data and instance, cleans the stored data
    to: [None] when nothing is stored for the step or the data do not
    validate. *)
Theorem cleaned_data_for_step_revalidates :
  forall (w : Wizard) (k : string) (st : St),
    (sd_has_key (form_list w) k = false ->
     get_cleaned_data_for_step w k st = OK (None, st)) /\
    (sd_has_key (form_list w) k = true -> is_ascii k = false ->
     get_cleaned_data_for_step w k st = Raise UnicodeEncodeError) /\
    (forall cls,
       sd_getitem (form_list w) k = OK cls -> is_ascii k = true ->
       get_cleaned_data_for_step w k st
       = OK (step_data (storage st) !! k ≫=
               fc_clean cls k (get_form_initial w k)
                        (if fc_is_model_form cls
                         then Some (get_form_instance w k) else None),
             st)).
Proof.
  intros w k st. rewrite get_cleaned_data_for_step_cleaned.
  unfold sd_has_key, sd_getitem, step_cleaned, stored_form.
  destruct (dict (form_list w) !! k) as [cls|]; split_and!.
  - intros H. apply bool_decide_eq_false in H. destruct H. eauto.
  - by intros _ ->.
  - intros cls' [= <-] ->. simpl. unfold form_clean, build_form. simpl.
    by destruct (step_data (storage st) !! k).
  - done.
  - intros H. apply bool_decide_eq_true in H. by destruct H.
  - by intros cls' [=].
Qed.

(** X7. Storing data for a configured step with an ASCII name and asking
    for the step's cleaned data gives what validating those data directly
    gives: for the form [f] that [get_form] binds to data [d],
    [process_step] returns [d], and after [set_step_data(k, d)] the cleaned
    data of [k] are [f]'s, while the outcome for every other step is what it
    was. *)
Theorem stored_step_round_trip :
  forall (w : Wizard) (k : string) (cls : FormClass) (d : gmap string string)
         (st : St),
    sd_getitem (form_list w) k = OK cls ->
    is_ascii k = true ->
    exists f st',
      get_form w (Some k) (Some d) st = OK (f, st) /\
      process_step w f = d /\
      storage_set_step_data k d st = OK (tt, st') /\
      (storage_set_step_data k d ;;; get_cleaned_data_for_step w k) st
      = OK (form_clean f, st') /\
      (forall k' r st0,
         k' <> k ->
         get_cleaned_data_for_step w k' st = OK (r, st0) ->
         (storage_set_step_data k d ;;; get_cleaned_data_for_step w k') st
         = OK (r, st')).
Proof.
  intros w k cls d st Hcls Hascii. unfold sd_getitem in Hcls.
  destruct (dict (form_list w) !! k) as [cls'|] eqn:Hd; [|done].
  injection Hcls as ->.
  exists (build_form w k cls (Some d)). eexists.
  split_and!.
  - by rewrite get_form_build, Hd, Hascii.
  - done.
  - reflexivity.
  - unfold bind, storage_set_step_data, with_storage.
    rewrite get_cleaned_data_for_step_cleaned, Hd, Hascii. simpl.
    unfold step_cleaned, stored_form. rewrite Hd. simpl.
    by rewrite lookup_insert_eq.
  - intros k' r st0 Hne. unfold bind, storage_set_step_data, with_storage.
    rewrite !get_cleaned_data_for_step_cleaned.
    destruct (dict (form_list w) !! k') as [cls'|] eqn:Hd';
      [destruct (is_ascii k'); [|done]|]; intros [= <- _]; [|done].
    unfold step_cleaned, stored_form. simpl.
    by rewrite lookup_insert_ne.
Qed.

Lemma merge_steps_nothing (w : Wizard) (s : Storage) (keys : list string)
    (acc : gmap string PyVal) :
  (forall k, k ∈ keys -> step_cleaned w s k = None) ->
  merge_steps w s acc keys = acc.
Proof.
  revert acc; induction keys as [|k keys IH]; intros acc Hnone; [done|].
  simpl. rewrite (Hnone k) by (by left).
  apply IH. intros k' Hk'. apply Hnone. by right.
Qed.

(** X8. With no step data stored (a wizard run that has just begun), on a
    configured wizard all of whose step names are ASCII: no step has
    cleaned data, [get_all_cleaned_data] returns the empty dictionary, and
    [render_done] calls no completion handler: it makes the first
    configured step the current step and renders that step's unbound
    form. *)
Theorem nothing_stored_nothing_cleaned :
  forall cls sn entries dv il inl w request form st,
    FormWizard_init cls sn entries dv il inl = OK w ->
    ascii_steps w = true ->
    step_data (storage st) = ∅ ->
    (forall k, get_cleaned_data_for_step w k st = OK (None, st)) /\
    get_all_cleaned_data w st = OK (∅, st) /\
    exists first fc ctx,
      head (sd_keys (form_list w)) = Some first /\
      get_first_step w = OK first /\
      sd_getitem (form_list w) first = OK fc /\
      render_done w request form st
      = OK (TemplateResponse (get_template w) ctx, at_step (Some first) st) /\
      ctx_form ctx = build_form w first fc None /\
      is_valid (ctx_form ctx) = false /\
      forall h1 h2,
        render_done (with_handlers w h1 h2) request form st
        = render_done w request form st.
Proof.
  intros cls sn entries dv il inl w request form st Hinit Hascii Hempty.
  pose proof (FormWizard_init_wf _ _ _ _ _ _ _ Hinit) as Hwf.
  assert (forall k, step_cleaned w (storage st) k = None) as Hnone.
  { intros k. unfold step_cleaned, stored_form. rewrite Hempty, lookup_empty.
    by destruct (dict (form_list w) !! k). }
  split_and!.
  - intros k. rewrite get_cleaned_data_for_step_cleaned, Hnone.
    destruct (dict (form_list w) !! k) as [c|] eqn:Hc; [|done].
    rewrite (ascii_steps_elem w k Hascii); [done|].
    destruct Hwf as [[_ Hdom] _]. apply Hdom. eauto.
  - unfold get_all_cleaned_data.
    rewrite get_all_cleaned_data_loop_merge.
    + by rewrite merge_steps_nothing.
    + intros k Hk. split; [by apply stored_form_configured|].
      by apply (ascii_steps_elem w).
  - destruct (wizard_wf_first w Hwf) as (first & Hh & Hfirst).
    unfold sd_keys in *.
    destruct (keyOrder (form_list w)) as [|k0 rest] eqn:Hkeys; [done|].
    injection Hh as ->.
    assert (first ∈ keyOrder (form_list w)) as Hin by (rewrite Hkeys; by left).
    pose proof (ascii_steps_elem w first Hascii Hin) as Hafirst.
    destruct (stored_form_configured w Hwf (storage st) first Hin) as [f Hf].
    assert (exists fc, dict (form_list w) !! first = Some fc /\
                       f = build_form w first fc None) as (fc & Hfc & ->).
    { unfold stored_form in Hf. rewrite Hempty, lookup_empty in Hf.
      destruct (dict (form_list w) !! first) as [fc|]; [|done].
      exists fc. split; [done|]. simpl in Hf. by injection Hf as <-. }
    assert (is_valid (build_form w first fc None) = false) as Hv.
    { reflexivity. }
    assert (forall w', form_list w' = form_list w ->
              initial_list w' = initial_list w ->
              instance_list w' = instance_list w ->
              render_done w' request form st
              = render_revalidation_failure w' request first
                  (build_form w first fc None) st) as Hfail.
    { intros w' Hfl Hil Hinl. unfold render_done, sd_keys.
      rewrite Hfl, Hkeys.
      apply (render_done_loop_invalid w' request [] first rest); [| | |done].
      - intros k' Hk'. apply list_elem_of_singleton in Hk' as ->. done.
      - intros k' Hk'. by apply elem_of_nil in Hk'.
      - unfold stored_form. rewrite Hfl, Hfc, Hempty, lookup_empty. simpl.
        unfold build_form, get_form_initial, get_form_instance.
        by rewrite Hil, Hinl. }
    destruct (render_total w Hwf request (build_form w first fc None)
                (at_step (Some first) st)) as (ctx & Hr & Hform & _).
    { apply effective_step_configured; [done|]. simpl. by intros x [= <-]. }
    exists first, fc, ctx. split_and!; try done.
    + unfold sd_getitem. by rewrite Hfc.
    + by rewrite (Hfail w).
    + by rewrite Hform.
    + intros h1 h2. by rewrite (Hfail w), (Hfail (with_handlers w h1 h2)).
Qed.

(** ** Rendering and moving between steps *)

Section configured_rendering.

Variable w : Wizard.
Hypothesis Hwf : wizard_wf w.

Lemma get_prev_step_current (st : St) :
  get_prev_step w None st
  = get_prev_step w (Some (effective_step w (storage st))) st.
Proof.
  unfold get_prev_step. unfold bind at 1 3.
  by rewrite !step_or_current_effective.
Qed.

Lemma get_next_step_current (st : St) :
  get_next_step w None st
  = get_next_step w (Some (effective_step w (storage st))) st.
Proof.
  unfold get_next_step. unfold bind at 1 3.
  by rewrite !step_or_current_effective.
Qed.

Lemma get_step_index_current (st : St) :
  get_step_index w None st
  = get_step_index w (Some (effective_step w (storage st))) st.
Proof.
  unfold get_step_index. unfold bind.
  by rewrite !step_or_current_effective.
Qed.

(** The context [render_template] builds when the step the wizard works on
    stands at position [i]. *)
Lemma render_template_at (request : Request) (form : option Form) (st : St)
    (i : nat) (fc : FormClass) (first lst : string) :
  keyOrder (form_list w) !! i = Some (effective_step w (storage st)) ->
  dict (form_list w) !! effective_step w (storage st) = Some fc ->
  head (keyOrder (form_list w)) = Some first ->
  last (keyOrder (form_list w)) = Some lst ->
  (form = None -> is_ascii (effective_step w (storage st)) = true) ->
  render_template w request form st
  = OK (TemplateResponse (get_template w)
          (mkRenderContext
             (extra_context (storage st))
             (effective_step w (storage st))
             first lst
             (match i with
              | O => None
              | S j => keyOrder (form_list w) !! j
              end)
             (keyOrder (form_list w) !! S i)
             (Z.of_nat i) (Z.of_nat i + 1)
             (num_steps w)
             (default (build_form w (effective_step w (storage st)) fc None)
                      form)),
        st).
Proof.
  intros Hi Hfc Hh Hl Hascii. destruct Hwf as [[Hnd Hdom] Hne].
  assert (get_first_step w = OK first) as Hfirst.
  { unfold get_first_step, sd_keys.
    destruct (keyOrder (form_list w)); [done|]. injection Hh as ->.
    apply py_getitem_first. }
  assert (get_last_step w = OK lst) as Hlast
    by (by apply py_getitem_last).
  unfold render_template. unfold bind at 1.
  assert ((match form with
           | Some f => ret f
           | None => get_form w None None
           end) st
          = OK (default (build_form w (effective_step w (storage st)) fc None)
                        form, st)) as ->.
  { destruct form as [f|]; [done|]. simpl.
    by rewrite get_form_current, Hfc, Hascii by done. }
  unfold get_extra_context, storage_get_extra_context_data, read_storage.
  unfold bind at 1. unfold bind at 1.
  rewrite determine_step_effective by done.
  unfold bind at 1, lift at 1. rewrite Hfirst.
  unfold bind at 1, lift at 1. rewrite Hlast.
  unfold bind at 1. rewrite get_prev_step_current.
  rewrite (get_prev_step_at w i _ st Hnd Hi).
  unfold bind at 1. rewrite get_next_step_current.
  rewrite (get_next_step_at w i _ st Hnd Hi).
  unfold bind at 1. rewrite get_step_index_current.
  unfold get_step_index at 1. unfold bind at 1, step_or_current, ret at 1, lift at 1.
  rewrite (py_index_NoDup _ _ _ Hnd Hi).
  unfold bind at 1. rewrite get_step_index_current.
  unfold get_step_index at 1. unfold bind at 1, step_or_current, ret at 1, lift at 1.
  rewrite (py_index_NoDup _ _ _ Hnd Hi).
  done.
Qed.

End configured_rendering.

(** X9. On a configured wizard whose current step [e] (as [determine_step]
    gives it) is configured, at position [i], and has an ASCII name if no
    form is passed: [render_template] returns the
    template ['formwizard/wizard.html'] with a context in which the step is
    [e], the first and last steps are the ends of the configured order, the
    previous and next steps are the neighbours of [e] ([None] at the ends),
    the zero-based index is [i] and the one-based index [i + 1], the count
    is the number of configured steps, the extra context is the stored one
    and the form is the one passed, or [e]'s unbound form when none is
    passed.  The state is left as it was. *)
Theorem render_template_context :
  forall cls sn entries dv il inl w request (form : option Form) st e st0
         (i : nat),
    FormWizard_init cls sn entries dv il inl = OK w ->
    determine_step w st = OK (e, st0) ->
    sd_keys (form_list w) !! i = Some e ->
    (form = None -> is_ascii e = true) ->
    exists ctx fc,
      render_template w request form st
      = OK (TemplateResponse "formwizard/wizard.html" ctx, st) /\
      sd_getitem (form_list w) e = OK fc /\
      ctx_form ctx = default (build_form w e fc None) form /\
      ctx_extra_context ctx = extra_context (storage st) /\
      ctx_form_step ctx = e /\
      head (sd_keys (form_list w)) = Some (ctx_form_first_step ctx) /\
      last (sd_keys (form_list w)) = Some (ctx_form_last_step ctx) /\
      ctx_form_prev_step ctx
      = match i with
        | O => None
        | S j => sd_keys (form_list w) !! j
        end /\
      ctx_form_next_step ctx = sd_keys (form_list w) !! S i /\
      ctx_form_step0 ctx = Z.of_nat i /\
      ctx_form_step1 ctx = Z.of_nat i + 1 /\
      ctx_form_step_count ctx = length (sd_keys (form_list w)).
Proof.
  intros cls sn entries dv il inl w request form st e st0 i Hinit Hd Hi Ha.
  pose proof (FormWizard_init_wf _ _ _ _ _ _ _ Hinit) as Hwf.
  rewrite determine_step_effective in Hd by done. injection Hd as <- <-.
  unfold sd_keys in *.
  destruct (wizard_wf_first w Hwf) as (first & Hh & _).
  destruct (wizard_wf_last w Hwf) as (lst & Hl & _).
  assert (is_Some (dict (form_list w) !! effective_step w (storage st)))
    as [fc Hfc].
  { destruct Hwf as [[_ Hdom] _]. apply Hdom. by eapply list_elem_of_lookup_2. }
  eexists _, fc. split.
  { by apply (render_template_at w Hwf request form st i fc first lst). }
  simpl. split_and!; try done.
  - unfold sd_getitem. by rewrite Hfc.
  - unfold num_steps. apply sd_wf_len. by destruct Hwf.
Qed.

(** X10. When the step [determine_step] gives is not a configured one (the
    storage holds a step name the wizard does not know), rendering fails:
    [render] with a form raises [ValueError], from the search of the step in
    the configured order, and [render_template] without a form raises
    [KeyError], from the lookup of the step's form class. *)
Theorem render_unconfigured_current_step_raises :
  forall cls sn entries dv il inl w request (f : Form) st e st0,
    FormWizard_init cls sn entries dv il inl = OK w ->
    determine_step w st = OK (e, st0) ->
    e ∉ sd_keys (form_list w) ->
    render w request f st = Raise ValueError /\
    render_template w request None st = Raise (KeyError e).
Proof.
  intros cls sn entries dv il inl w request f st e st0 Hinit Hd He.
  pose proof (FormWizard_init_wf _ _ _ _ _ _ _ Hinit) as Hwf.
  rewrite determine_step_effective in Hd by done. injection Hd as <- <-.
  unfold sd_keys in He.
  destruct (wizard_wf_first w Hwf) as (first & _ & Hfirst).
  destruct (wizard_wf_last w Hwf) as (lst & _ & Hlast).
  split.
  - unfold render, render_template, get_extra_context,
      storage_get_extra_context_data, read_storage.
    unfold bind at 1, ret at 1. unfold bind at 1. unfold bind at 1.
    rewrite determine_step_effective by done.
    unfold bind at 1, lift at 1. rewrite Hfirst.
    unfold bind at 1, lift at 1. rewrite Hlast.
    unfold bind at 1. rewrite get_prev_step_current by done.
    unfold get_prev_step, bind, step_or_current, ret, lift, py_index.
    by rewrite list_index_None.
  - unfold render_template. unfold bind at 1.
    rewrite get_form_current by done.
    assert (dict (form_list w) !! effective_step w (storage st) = None) as ->.
    { destruct Hwf as [[_ Hdom] _]. apply eq_None_not_Some. by rewrite <-Hdom. }
    done.
Qed.

(** X11. On a configured wizard whose current step stands at position [i]
    and is not the last, and whose next step [n], at position [i + 1], has
    an ASCII name, [render_next_step] makes [n] the current step, touching nothing else in the state, and
    renders [n]'s form bound to the data stored for [n]; the form passed to
    it plays no part.  Unless [n] is the empty string, the context names [n]
    as the step, with index [i + 1]. *)
Theorem render_next_step_advances :
  forall cls sn entries dv il inl w request (form : Form) st e st0 (i : nat) n,
    FormWizard_init cls sn entries dv il inl = OK w ->
    determine_step w st = OK (e, st0) ->
    sd_keys (form_list w) !! i = Some e ->
    sd_keys (form_list w) !! S i = Some n ->
    is_ascii n = true ->
    exists fc ctx,
      sd_getitem (form_list w) n = OK fc /\
      render_next_step w request form st
      = OK (TemplateResponse (get_template w) ctx, at_step (Some n) st) /\
      ctx_form ctx = build_form w n fc (step_data (storage st) !! n) /\
      (n <> "" ->
       ctx_form_step ctx = n /\
       ctx_form_step0 ctx = Z.of_nat (S i) /\
       ctx_form_prev_step ctx = Some e).
Proof.
  intros cls sn entries dv il inl w request form st e st0 i n Hinit Hd Hi Hn
         Hascii.
  pose proof (FormWizard_init_wf _ _ _ _ _ _ _ Hinit) as Hwf.
  rewrite determine_step_effective in Hd by done. injection Hd as <- <-.
  unfold sd_keys in *.
  destruct (wizard_wf_first w Hwf) as (first & Hh & _).
  destruct (wizard_wf_last w Hwf) as (lst & Hl & _).
  pose proof Hwf as [[Hnd Hdom] _].
  assert (is_Some (dict (form_list w) !! n)) as [fc Hfc].
  { apply Hdom. by eapply list_elem_of_lookup_2. }
  assert (render_next_step w request form st
          = render w request (build_form w n fc (step_data (storage st) !! n))
                   (at_step (Some n) st)) as Hstep.
  { unfold render_next_step. unfold bind at 1.
    rewrite get_next_step_current by done.
    rewrite (get_next_step_at w i _ st Hnd Hi), Hn.
    unfold bind at 1, storage_get_step_data, read_storage. simpl mbind.
    unfold bind at 1. rewrite get_form_build, Hfc, Hascii.
    unfold bind at 1, storage_set_current_step, with_storage. done. }
  destruct (decide (n = "")) as [Hblank|Hne].
  - destruct (render_total w Hwf request
                (build_form w n fc (step_data (storage st) !! n))
                (at_step (Some n) st)) as (ctx & Hr & Hform & _).
    { apply effective_step_configured; [done|]. simpl. by intros x [= <-]. }
    exists fc, ctx. split_and!; try done.
    + unfold sd_getitem. by rewrite Hfc.
    + by rewrite Hstep.
  - assert (effective_step w (storage (at_step (Some n) st)) = n) as Heff.
    { unfold effective_step. simpl. by rewrite decide_False. }
    eexists fc, _. split_and!.
    + unfold sd_getitem. by rewrite Hfc.
    + rewrite Hstep. unfold render.
      apply (render_template_at w Hwf request _ _ (S i) fc first lst);
        by rewrite ?Heff.
    + done.
    + intros _. cbn [ctx_form_step ctx_form_step0 ctx_form_prev_step].
      by rewrite Heff, Hi.
Qed.

(** X12. [render_backward] itself does not check the step it is asked to
    go back to; the check is the caller's.  Called with a submission that
    names no previous step it raises [KeyError] for the missing field, and
    called for a name that is not configured (and not empty) it raises
    [KeyError] for that name, from the lookup of the form class. *)
Theorem render_backward_unguarded :
  forall (w : Wizard) (request : Request) (st : St),
    (POST request !! "form_prev_step" = None ->
     render_backward w request st = Raise (KeyError "form_prev_step")) /\
    (forall prev,
       POST request !! "form_prev_step" = Some prev ->
       prev <> "" ->
       sd_has_key (form_list w) prev = false ->
       render_backward w request st = Raise (KeyError prev)).
Proof.
  intros w request st. split.
  - intros Hpost. unfold render_backward, post_getitem. by rewrite Hpost.
  - intros prev Hpost Hne Hk.
    assert (dict (form_list w) !! prev = None) as Hd.
    { unfold sd_has_key in Hk. apply bool_decide_eq_false in Hk.
      by apply eq_None_not_Some. }
    assert (forall s, determine_step w (at_step (Some prev) s)
                      = OK (prev, at_step (Some prev) s)) as Hdet.
    { intros s. unfold determine_step, storage_get_current_step, read_storage,
        bind, py_or. simpl.
      by destruct (String.eqb_spec prev ""). }
    unfold render_backward, post_getitem. rewrite Hpost.
    unfold bind at 1, ret at 1.
    unfold bind at 1, storage_set_current_step, with_storage.
    change (mkSt _ _) with (at_step (Some prev) st).
    unfold bind at 1. rewrite Hdet.
    unfold bind at 1, storage_get_step_data, read_storage. simpl mbind.
    unfold bind at 1. unfold get_form. unfold bind at 1.
    unfold step_or_current. rewrite Hdet.
    unfold bind at 1, lift at 1, sd_getitem. by rewrite Hd.
Qed.

(** ** What the methods leave alone *)

Lemma determine_step_pres (w : Wizard) (st st' : St) x :
  determine_step w st = OK (x, st') -> st' = st.
Proof.
  unfold determine_step, bind, storage_get_current_step, read_storage, py_or,
    lift, ret.
  destruct (current_step (storage st)) as [s|];
    [destruct (String.eqb s "")|];
    destruct (get_first_step w); congruence.
Qed.

Lemma step_or_current_pres (w : Wizard) (step : option string) (st st' : St) x :
  step_or_current w step st = OK (x, st') -> st' = st.
Proof.
  destruct step as [s|]; simpl; [unfold ret; congruence|].
  apply determine_step_pres.
Qed.

Lemma get_prev_step_pres (w : Wizard) (step : option string) (st st' : St) x :
  get_prev_step w step st = OK (x, st') -> st' = st.
Proof.
  unfold get_prev_step. unfold bind at 1.
  destruct (step_or_current w step st) as [[s st1]|] eqn:E; [|done].
  apply step_or_current_pres in E as ->.
  unfold bind, lift, ret.
  destruct (py_index _ _) as [i|]; [|done].
  destruct (i - 1 <? 0); [congruence|].
  destruct (py_getitem _ _); congruence.
Qed.

Lemma get_next_step_pres (w : Wizard) (step : option string) (st st' : St) x :
  get_next_step w step st = OK (x, st') -> st' = st.
Proof.
  unfold get_next_step. unfold bind at 1.
  destruct (step_or_current w step st) as [[s st1]|] eqn:E; [|done].
  apply step_or_current_pres in E as ->.
  unfold bind, lift, ret.
  destruct (py_index _ _) as [i|]; [|done].
  destruct (_ >? _); [|congruence].
  destruct (py_getitem _ _); congruence.
Qed.

Lemma get_step_index_pres (w : Wizard) (step : option string) (st st' : St) x :
  get_step_index w step st = OK (x, st') -> st' = st.
Proof.
  unfold get_step_index. unfold bind at 1.
  destruct (step_or_current w step st) as [[s st1]|] eqn:E; [|done].
  apply step_or_current_pres in E as ->.
  unfold lift. destruct (py_index _ _); congruence.
Qed.

Lemma get_form_pres (w : Wizard) (step : option string) data (st st' : St) x :
  get_form w step data st = OK (x, st') -> st' = st.
Proof.
  unfold get_form. unfold bind at 1.
  destruct (step_or_current w step st) as [[s st1]|] eqn:E; [|done].
  apply step_or_current_pres in E as ->.
  unfold get_form_prefix, step_or_current, bind, lift, ret, py_str.
  destruct (sd_getitem (form_list w) s); [|done].
  destruct (is_ascii s); congruence.
Qed.

Lemma render_template_pres (w : Wizard) (request : Request)
    (form : option Form) (st st' : St) r :
  render_template w request form st = OK (r, st') -> st' = st.
Proof.
  unfold render_template. unfold bind at 1.
  destruct (match form with Some f => ret f | None => get_form w None None end st)
    as [[f st1]|] eqn:E; [|done].
  assert (st1 = st) as ->.
  { destruct form; [unfold ret in E; congruence|by apply get_form_pres in E]. }
  unfold get_extra_context, storage_get_extra_context_data, read_storage.
  unfold bind at 1. unfold bind at 1.
  destruct (determine_step w st) as [[e st1]|] eqn:E1; [|done].
  apply determine_step_pres in E1 as ->.
  unfold bind at 1, lift at 1. destruct (get_first_step w); [|done].
  unfold bind at 1, lift at 1. destruct (get_last_step w); [|done].
  unfold bind at 1.
  destruct (get_prev_step w None st) as [[p st1]|] eqn:E2; [|done].
  apply get_prev_step_pres in E2 as ->.
  unfold bind at 1.
  destruct (get_next_step w None st) as [[n st1]|] eqn:E3; [|done].
  apply get_next_step_pres in E3 as ->.
  unfold bind at 1.
  destruct (get_step_index w None st) as [[i0 st1]|] eqn:E4; [|done].
  apply get_step_index_pres in E4 as ->.
  unfold bind at 1.
  destruct (get_step_index w None st) as [[i1 st1]|] eqn:E5; [|done].
  apply get_step_index_pres in E5 as ->.
  unfold ret. congruence.
Qed.

(** X13. Rendering and moving between steps never alter the data stored
    for the steps, the extra context, or anything outside the storage,
    whatever the wizard and the storage.  When they return, [render] and
    [render_template] leave the state exactly as it was, and
    [render_next_step], [render_backward] and [render_revalidation_failure]
    change the current step only. *)
Theorem navigation_keeps_stored_data :
  forall (w : Wizard) (request : Request) (form : Form) (st st' : St) r,
    (forall fo, render_template w request fo st = OK (r, st') -> st' = st) /\
    (render w request form st = OK (r, st') -> st' = st) /\
    (render_next_step w request form st = OK (r, st') ->
     exists c, st' = at_step c st) /\
    (render_backward w request st = OK (r, st') ->
     exists c, st' = at_step c st) /\
    (forall k, render_revalidation_failure w request k form st = OK (r, st') ->
               st' = at_step (Some k) st).
Proof.
  intros w request form st st' r. split_and!.
  - intros fo. apply render_template_pres.
  - apply render_template_pres.
  - unfold render_next_step. unfold bind at 1.
    destruct (get_next_step w None st) as [[n st1]|] eqn:E; [|done].
    apply get_next_step_pres in E as ->.
    unfold bind at 1, storage_get_step_data, read_storage.
    unfold bind at 1.
    destruct (get_form w n _ st) as [[f st1]|] eqn:E; [|done].
    apply get_form_pres in E as ->.
    unfold bind at 1, storage_set_current_step, with_storage.
    change (mkSt _ _) with (at_step n st).
    unfold render. intros ->%render_template_pres. by exists n.
  - unfold render_backward, post_getitem.
    destruct (POST request !! "form_prev_step") as [prev|]; [|done].
    unfold bind at 1, ret at 1.
    unfold bind at 1, storage_set_current_step, with_storage.
    change (mkSt _ _) with (at_step (Some prev) st).
    unfold bind at 1.
    destruct (determine_step w _) as [[e st1]|] eqn:E; [|done].
    apply determine_step_pres in E as ->.
    unfold bind at 1, storage_get_step_data, read_storage.
    unfold bind at 1.
    destruct (get_form w None _ _) as [[f st1]|] eqn:E; [|done].
    apply get_form_pres in E as ->.
    unfold render. intros ->%render_template_pres. by exists (Some prev).
  - intros k. unfold render_revalidation_failure.
    unfold bind, storage_set_current_step, with_storage.
    change (mkSt _ _) with (at_step (Some k) st).
    unfold render. by intros ->%render_template_pres.
Qed.

(** ** Extra context, composed *)

(** X14. Updates of the extra context compose: updating with [p1] and then
    with [p2] is one update with [p1] overlaid by [p2]; updating twice with
    the same patch is updating once; updating with the empty patch changes
    nothing. *)
Theorem update_extra_context_composes :
  forall (w : Wizard) (p1 p2 : gmap string PyVal) (st : St),
    (update_extra_context w p1 ;;; update_extra_context w p2) st
    = update_extra_context w (dict_update p1 p2) st /\
    (update_extra_context w p1 ;;; update_extra_context w p1) st
    = update_extra_context w p1 st /\
    update_extra_context w ∅ st = OK (tt, st).
Proof.
  intros w p1 p2 st.
  unfold update_extra_context, get_extra_context,
    storage_get_extra_context_data, storage_set_extra_context_data,
    read_storage, with_storage, bind, dict_update. simpl.
  split_and!.
  - by rewrite (assoc_L (∪)).
  - by rewrite (assoc_L (∪)), (idemp_L (∪)).
  - rewrite (left_id_L ∅ (∪)). by destruct st as [[? ? ?] ?].
Qed.

(** ** Dispatch and the current step *)

(** X15. For a submission that names no previous step, [_process_request]
    chooses the step view by the current step as the storage holds it, not
    by the step [determine_step] gives.  With a step stored that has a view
    of its own, that view runs; with no step stored, the default view runs,
    also when the first step, which [determine_step] then returns, has a
    view of its own; the state passed on is the state as it was. *)
Theorem dispatch_by_stored_step :
  forall cls sn entries dv il inl w request (views : gmap string StepView)
         st (view_default : StepView),
    FormWizard_init cls sn entries dv il inl = OK w ->
    method request <> "GET" ->
    POST request !! "form_prev_step" = None ->
    views !! "default" = Some view_default ->
    (forall c view,
       current_step (storage st) = Some c -> views !! c = Some view ->
       _process_request request w views st = view request w st) /\
    (current_step (storage st) = None ->
     _process_request request w views st = view_default request w st /\
     exists first,
       get_first_step w = OK first /\
       determine_step w st = OK (first, st) /\
       forall view_first,
         views !! first = Some view_first ->
         _process_request request w views st = view_default request w st).
Proof.
  intros cls sn entries dv il inl w request views st view_default
         Hinit Hm Hpost Hdef.
  pose proof (FormWizard_init_wf _ _ _ _ _ _ _ Hinit) as Hwf.
  assert (_process_request request w views st
          = match current_step (storage st) ≫= (views !!.) with
            | Some view => view request w st
            | None => view_default request w st
            end) as Hdispatch.
  { unfold _process_request.
    destruct (String.eqb_spec (method request) "GET") as [?|_]; [done|].
    rewrite Hpost. rewrite bool_decide_eq_false_2 by (by intros [? ?]).
    cbn [andb]. unfold bind, storage_get_current_step, read_storage, ret.
    destruct (current_step (storage st) ≫= (views !!.)); [done|].
    unfold StepView in *. by rewrite Hdef. }
  split.
  - intros c view Hc Hv. rewrite Hdispatch, Hc. simpl. by rewrite Hv.
  - intros Hnone.
    assert (_process_request request w views st = view_default request w st)
      as Hres by (by rewrite Hdispatch, Hnone).
    split; [done|].
    destruct (wizard_wf_first w Hwf) as (first & Hh & Hfirst).
    exists first. split_and!; try done.
    rewrite determine_step_effective by done.
    unfold effective_step. by rewrite Hnone, Hh.
Qed.

(** ** Building a form *)

(** X16. The three outcomes of [get_form(k, data)], none of which reads or
    changes the state.  For a step that is not configured it raises
    [KeyError]; for a configured step whose name is not ASCII it raises
    [UnicodeEncodeError], from [str(step)] in [get_form_prefix]; for a
    configured step with an ASCII name it returns an object of the step's
    form class with [data] as its data, the step name as its prefix and the
    step's entry of [initial_list] (the empty dictionary if there is none)
    as its initial data, an instance (the step's entry of [instance_list],
    or [None]) being passed exactly when the class is a model form.  Forms
    of different steps have different prefixes, and [get_form] without a
    step builds the form of the step [determine_step] gives. *)
Theorem get_form_builds_step_form :
  forall (w : Wizard) (k : string) data (st : St),
    (sd_has_key (form_list w) k = false ->
     get_form w (Some k) data st = Raise (KeyError k)) /\
    (sd_has_key (form_list w) k = true -> is_ascii k = false ->
     get_form w (Some k) data st = Raise UnicodeEncodeError) /\
    (forall cls,
       sd_getitem (form_list w) k = OK cls -> is_ascii k = true ->
       exists f,
         get_form w (Some k) data st = OK (f, st) /\
         form_class f = cls /\
         form_data f = data /\
         form_prefix f = k /\
         form_initial f = default ∅ (initial_list w !! k) /\
         form_instance f
         = (if fc_is_model_form cls
            then Some (default PyNone (instance_list w !! k)) else None) /\
         (forall k' data' st' f',
            k' <> k -> get_form w (Some k') data' st' = OK (f', st') ->
            form_prefix f' <> form_prefix f) /\
         (forall st0, determine_step w st = OK (k, st0) ->
                      get_form w None data st = OK (f, st))).
Proof.
  intros w k data st. rewrite get_form_build.
  unfold sd_has_key, sd_getitem.
  destruct (dict (form_list w) !! k) as [cls|] eqn:Hd; split_and!.
  - intros H. apply bool_decide_eq_false in H. destruct H. eauto.
  - by intros _ ->.
  - intros cls' [= <-] Ha. rewrite Ha.
    exists (build_form w k cls data). split_and!; try done.
    + intros k' data' st' f' Hne. rewrite get_form_build.
      destruct (dict (form_list w) !! k'); [|done].
      destruct (is_ascii k'); [|done]. intros [= <-]. simpl. done.
    + intros st0 Hdet. pose proof (determine_step_pres _ _ _ _ Hdet) as ->.
      unfold get_form. unfold bind at 1. unfold step_or_current. rewrite Hdet.
      change (get_form w (Some k) data st = OK (build_form w k cls data, st)).
      by rewrite get_form_build, Hd, Ha.
  - done.
  - intros H. apply bool_decide_eq_true in H. by destruct H.
  - by intros cls' [=].
Qed.

(** ** Finalisation, further *)

(** X17. A wizard of one of the classes of [forms.py] configured without a
    [done_view] cannot complete: when every step validates, [render_done]
    raises [NotImplementedError], from [FormWizard.done]. *)
Theorem render_done_without_handler_raises :
  forall cls sn entries il inl w request form st,
    cls = FormWizard \/ cls = SessionFormWizard \/ cls = CookieFormWizard ->
    FormWizard_init cls sn entries None il inl = OK w ->
    (forall k, k ∈ sd_keys (form_list w) ->
       exists c, get_cleaned_data_for_step w k st = OK (Some c, st)) ->
    render_done w request form st = Raise NotImplementedError.
Proof.
  intros cls sn entries il inl w request form st Hcls Hinit Hall.
  pose proof (FormWizard_init_wf _ _ _ _ _ _ _ Hinit) as Hwf.
  unfold render_done. rewrite render_done_loop_valid.
  - apply FormWizard_init_OK in Hinit as [_ ->]. unfold done. simpl.
    by destruct Hcls as [-> | [-> | ->]].
  - intros k Hk. destruct (Hall k Hk) as [c Hc].
    by apply get_cleaned_data_for_step_Some in Hc as [_ Ha].
  - intros k Hk. destruct (Hall k Hk) as [c Hc].
    apply get_cleaned_data_for_step_Some in Hc as [Hc _].
    destruct (stored_form_configured w Hwf (storage st) k Hk) as [f Hf].
    exists f. split; [done|]. unfold is_valid.
    rewrite <-(is_valid_step_cleaned _ _ _ _ Hf), Hc.
    by apply bool_decide_eq_true_2.
Qed.

(** X18. After a failed finalisation the wizard stands at the step that
    failed: when [k] is the first configured step whose stored data do not
    validate, and [k] is not the empty string, [determine_step] called after
    [render_done] returns [k]. *)
Theorem render_done_failure_then_current_step :
  forall cls sn entries dv il inl w request form st pre k post,
    FormWizard_init cls sn entries dv il inl = OK w ->
    sd_keys (form_list w) = pre ++ k :: post ->
    (forall k', k' ∈ pre ->
       exists c, get_cleaned_data_for_step w k' st = OK (Some c, st)) ->
    get_cleaned_data_for_step w k st = OK (None, st) ->
    k <> "" ->
    (render_done w request form ;;; determine_step w) st
    = OK (k, at_step (Some k) st).
Proof.
  intros cls sn entries dv il inl w request form st pre k post
         Hinit Hkeys Hpre Hk Hne.
  pose proof (FormWizard_init_wf _ _ _ _ _ _ _ Hinit) as Hwf.
  assert (k ∈ keyOrder (form_list w)) as Hin.
  { unfold sd_keys in Hkeys. rewrite Hkeys. set_solver. }
  destruct (stored_form_configured w Hwf (storage st) k Hin) as [f Hf].
  assert (is_Some (dict (form_list w) !! k)) as Hcfg.
  { destruct Hwf as [[_ Hdom] _]. by apply Hdom. }
  apply (get_cleaned_data_for_step_None _ _ _ _ Hcfg) in Hk as [Hk Hak].
  assert (is_valid f = false) as Hv.
  { rewrite (is_valid_step_cleaned _ _ _ _ Hf) in Hk.
    unfold is_valid. rewrite Hk. by apply bool_decide_eq_false_2; intros [? ?]. }
  assert (render_done w request form st
          = render_revalidation_failure w request k f st) as Hfail.
  { unfold render_done. rewrite Hkeys.
    apply render_done_loop_invalid; [| |done..].
    { intros k' [Hk'| ->%list_elem_of_singleton]%elem_of_app; [|done].
      destruct (Hpre k' Hk') as [c Hc].
      by apply get_cleaned_data_for_step_Some in Hc as [_ Ha]. }
    intros k' Hk'. destruct (Hpre k' Hk') as [c Hc].
    apply get_cleaned_data_for_step_Some in Hc as [Hc _].
    assert (k' ∈ keyOrder (form_list w)) as Hin'.
    { unfold sd_keys in Hkeys. rewrite Hkeys. set_solver. }
    destruct (stored_form_configured w Hwf (storage st) k' Hin') as [f' Hf'].
    exists f'. split; [done|]. unfold is_valid.
    rewrite <-(is_valid_step_cleaned _ _ _ _ Hf'), Hc.
    by apply bool_decide_eq_true_2. }
  destruct (render_total w Hwf request f (at_step (Some k) st))
    as (ctx & Hr & _).
  { apply effective_step_configured; [done|]. simpl. by intros x [= <-]. }
  unfold bind at 1. rewrite Hfail. unfold render_revalidation_failure.
  unfold bind, storage_set_current_step, with_storage.
  change (mkSt _ _) with (at_step (Some k) st). rewrite Hr.
  rewrite determine_step_effective by done.
  unfold effective_step. simpl. by rewrite decide_False.
Qed.

(** ** Forward and back *)

(** X19. Going forward and then back returns to where the wizard was: on a
    configured wizard whose stored current step [e] is not the last step
    (nor the empty string), [e] and the step after it having ASCII names,
    [render_next_step] followed by [render_backward]
    for a submission naming [e] ends in the state it started from, and the
    response renders [e]'s form bound to the data stored for [e]. *)
Theorem forward_then_back :
  forall cls sn entries dv il inl w request request' (form : Form) st e
         (i : nat) n,
    FormWizard_init cls sn entries dv il inl = OK w ->
    current_step (storage st) = Some e ->
    e <> "" ->
    sd_keys (form_list w) !! i = Some e ->
    sd_keys (form_list w) !! S i = Some n ->
    is_ascii e = true ->
    is_ascii n = true ->
    POST request' !! "form_prev_step" = Some e ->
    exists fc ctx,
      sd_getitem (form_list w) e = OK fc /\
      (render_next_step w request form ;;; render_backward w request') st
      = OK (TemplateResponse (get_template w) ctx, st) /\
      ctx_form ctx = build_form w e fc (step_data (storage st) !! e) /\
      ctx_form_step ctx = e.
Proof.
  intros cls sn entries dv il inl w request request' form st e i n
         Hinit Hcur Hne Hi Hn Hae Han Hpost.
  pose proof (FormWizard_init_wf _ _ _ _ _ _ _ Hinit) as Hwf.
  unfold sd_keys in *.
  assert (e ∈ keyOrder (form_list w)) as Hin
    by (by eapply list_elem_of_lookup_2).
  assert (effective_step w (storage st) = e) as Heff.
  { unfold effective_step. rewrite Hcur. by rewrite decide_False. }
  pose proof Hwf as [[Hnd Hdom] _].
  assert (is_Some (dict (form_list w) !! n)) as [fn Hfn].
  { apply Hdom. by eapply list_elem_of_lookup_2. }
  assert (exists r, render_next_step w request form st
                    = OK (r, at_step (Some n) st)) as [r Hnext].
  { unfold render_next_step. unfold bind at 1.
    rewrite get_next_step_current by done. rewrite Heff.
    rewrite (get_next_step_at w i e st Hnd Hi), Hn.
    unfold bind at 1, storage_get_step_data, read_storage. simpl mbind.
    unfold bind at 1. rewrite get_form_build, Hfn, Han.
    unfold bind at 1, storage_set_current_step, with_storage.
    change (mkSt _ _) with (at_step (Some n) st).
    destruct (render_total w Hwf request
                (build_form w n fn (step_data (storage st) !! n))
                (at_step (Some n) st)) as (ctx & Hr & _).
    { apply effective_step_configured; [done|]. simpl. intros x [= <-] _.
      by eapply list_elem_of_lookup_2. }
    rewrite Hr. eauto. }
  destruct (render_backward_configured w request' e (at_step (Some n) st)
              Hwf Hpost Hin Hne Hae) as (f & ctx & Hf & Hr & Hform & Hstep).
  assert (at_step (Some e) (at_step (Some n) st) = st) as Hback.
  { unfold at_step. simpl. destruct st as [[c sd ec] wd]. simpl in *.
    by rewrite Hcur. }
  rewrite Hback in Hr.
  assert (exists fc, dict (form_list w) !! e = Some fc /\
                     f = build_form w e fc (step_data (storage st) !! e))
    as (fc & Hfc & ->).
  { unfold stored_form in Hf. simpl in Hf.
    destruct (dict (form_list w) !! e) as [fc|]; [|done].
    exists fc. split; [done|]. simpl in Hf. by injection Hf as <-. }
  exists fc, ctx. split_and!; try done.
  - unfold sd_getitem. by rewrite Hfc.
  - unfold bind. by rewrite Hnext.
Qed.

(** ** The further properties at concrete wizards *)

Lemma abc_init :
  FormWizard_init FormWizard session_storage abc_entries (Some record_done) ∅ ∅
  = OK abc_wizard.
Proof. reflexivity. Defined.

Lemma abc_keys : sd_keys (form_list abc_wizard) = ["a"; "b"; "c"].
Proof. vm_compute. reflexivity. Defined.

Lemma step_adjacency_by_position_abc :
  sd_keys (form_list abc_wizard) !! 1%nat = Some "b" /\
  get_step_index abc_wizard (Some "b") fresh_state = OK (1, fresh_state) /\
  get_next_step abc_wizard (Some "b") fresh_state = OK (Some "c", fresh_state) /\
  get_prev_step abc_wizard (Some "b") fresh_state = OK (Some "a", fresh_state).
Proof.
  assert (sd_keys (form_list abc_wizard) !! 1%nat = Some "b") as Hb
    by (vm_compute; reflexivity).
  split; [exact Hb|].
  exact (step_adjacency_by_position FormWizard session_storage abc_entries
           (Some record_done) ∅ ∅ abc_wizard fresh_state 1 "b" abc_init Hb).
Defined.

Lemma next_prev_inverse_abc :
  get_next_step abc_wizard (Some "a") fresh_state = OK (Some "b", fresh_state) /\
  get_prev_step abc_wizard (Some "b") fresh_state = OK (Some "a", fresh_state) /\
  get_prev_step abc_wizard (Some "c") fresh_state = OK (Some "b", fresh_state) /\
  get_next_step abc_wizard (Some "b") fresh_state = OK (Some "c", fresh_state).
Proof.
  assert (get_next_step abc_wizard (Some "a") fresh_state
          = OK (Some "b", fresh_state)) as Hn by (vm_compute; reflexivity).
  assert (get_prev_step abc_wizard (Some "c") fresh_state
          = OK (Some "b", fresh_state)) as Hp by (vm_compute; reflexivity).
  split; [exact Hn|]. split.
  - exact (proj1 (next_prev_inverse FormWizard session_storage abc_entries
                    (Some record_done) ∅ ∅ abc_wizard fresh_state "a" abc_init)
             "b" fresh_state Hn).
  - split; [exact Hp|].
    exact (proj2 (next_prev_inverse FormWizard session_storage abc_entries
                    (Some record_done) ∅ ∅ abc_wizard fresh_state "c" abc_init)
             "b" fresh_state Hp).
Defined.

Lemma unknown_step_raises_abc :
  ("zzz" ∉ sd_keys (form_list abc_wizard)) /\
  get_step_index abc_wizard (Some "zzz") fresh_state = Raise ValueError /\
  get_next_step abc_wizard (Some "zzz") fresh_state = Raise ValueError /\
  get_prev_step abc_wizard (Some "zzz") fresh_state = Raise ValueError /\
  get_form abc_wizard (Some "zzz") None fresh_state = Raise (KeyError "zzz") /\
  get_cleaned_data_for_step abc_wizard "zzz" fresh_state = OK (None, fresh_state).
Proof.
  assert ("zzz" ∉ sd_keys (form_list abc_wizard)) as Hz.
  { rewrite abc_keys. intros H. apply list_elem_of_In in H. simpl in H.
    destruct H as [H|[H|[H|H]]]; try discriminate H. exact H. }
  split; [exact Hz|].
  exact (unknown_step_raises FormWizard session_storage abc_entries
           (Some record_done) ∅ ∅ abc_wizard "zzz" None fresh_state
           abc_init Hz).
Defined.

Lemma num_steps_counts_distinct_names_twin :
  FormWizard_init FormWizard session_storage twin_entries None ∅ ∅
  = OK (mkWizard FormWizard (init_form_list 0 twin_entries sd_empty)
                 session_storage None ∅ ∅) /\
  length twin_entries = 2%nat /\
  num_steps (mkWizard FormWizard (init_form_list 0 twin_entries sd_empty)
                      session_storage None ∅ ∅) = 1%nat /\
  (1 <= num_steps (mkWizard FormWizard (init_form_list 0 twin_entries sd_empty)
                            session_storage None ∅ ∅))%nat.
Proof.
  split; [reflexivity|]. split; [reflexivity|]. split; [vm_compute; reflexivity|].
  exact (proj1 (proj2 (num_steps_counts_distinct_names FormWizard
                         session_storage twin_entries None ∅ ∅ _ fresh_state
                         eq_refl))).
Defined.

Lemma bare_forms_keyed_by_position_three :
  FormWizard_init FormWizard session_storage bare_entries None ∅ ∅
  = OK bare_wizard /\
  sd_keys (form_list bare_wizard) = ["0"; "1"; "2"] /\
  num_steps bare_wizard = 3%nat.
Proof.
  split; [reflexivity|].
  assert (Forall (fun e => exists f, e = Bare f) bare_entries) as Hb.
  { repeat constructor; eexists; reflexivity. }
  destruct (bare_forms_keyed_by_position FormWizard session_storage
              bare_entries None ∅ ∅ bare_wizard eq_refl Hb) as (Hk & Hn & _).
  split; [exact Hk|exact Hn].
Defined.

Lemma stored_step_round_trip_abc :
  sd_getitem (form_list abc_wizard) "a" = OK (required_text_form "x") /\
  is_ascii "a" = true /\
  exists st',
    (storage_set_step_data "a" {[ "a-x" := "hello" ]} ;;;
     get_cleaned_data_for_step abc_wizard "a") abc_tampered
    = OK (Some (CleanedDict {[ "x" := PyStr "hello" ]}), st').
Proof.
  assert (sd_getitem (form_list abc_wizard) "a" = OK (required_text_form "x"))
    as Ha by (vm_compute; reflexivity).
  split; [exact Ha|]. split; [reflexivity|].
  destruct (stored_step_round_trip abc_wizard "a" (required_text_form "x")
              {[ "a-x" := "hello" ]} abc_tampered Ha eq_refl)
    as (f & st' & Hf & _ & _ & Hrt & _).
  exists st'. rewrite Hrt. f_equal. f_equal.
  assert (get_form abc_wizard (Some "a") (Some {[ "a-x" := "hello" ]})
                   abc_tampered
          = OK (build_form abc_wizard "a" (required_text_form "x")
                           (Some {[ "a-x" := "hello" ]}), abc_tampered)) as Hb
    by (vm_compute; reflexivity).
  rewrite Hb in Hf. injection Hf as <-. vm_compute. reflexivity.
Defined.

Lemma nothing_stored_nothing_cleaned_abc :
  ascii_steps abc_wizard = true /\
  step_data (storage fresh_state) = ∅ /\
  get_all_cleaned_data abc_wizard fresh_state = OK (∅, fresh_state) /\
  exists ctx,
    render_done abc_wizard submit_c form_c fresh_state
    = OK (TemplateResponse (get_template abc_wizard) ctx,
          at_step (Some "a") fresh_state).
Proof.
  split; [exact abc_ascii|]. split; [reflexivity|].
  destruct (nothing_stored_nothing_cleaned FormWizard session_storage
              abc_entries (Some record_done) ∅ ∅ abc_wizard submit_c form_c
              fresh_state abc_init abc_ascii eq_refl)
    as (_ & Hall & first & fc & ctx & _ & Hfirst & _ & Hr & _).
  split; [exact Hall|].
  assert (get_first_step abc_wizard = OK "a") as Ha by (vm_compute; reflexivity).
  rewrite Ha in Hfirst. injection Hfirst as <-.
  exists ctx. exact Hr.
Defined.

Lemma render_template_context_abc :
  determine_step abc_wizard abc_filled = OK ("c", abc_filled) /\
  sd_keys (form_list abc_wizard) !! 2%nat = Some "c" /\
  exists ctx,
    render_template abc_wizard submit_c None abc_filled
    = OK (TemplateResponse "formwizard/wizard.html" ctx, abc_filled) /\
    ctx_form_step ctx = "c" /\
    ctx_form_prev_step ctx = Some "b" /\
    ctx_form_next_step ctx = None /\
    ctx_form_step0 ctx = 2 /\
    ctx_form_step1 ctx = 3 /\
    ctx_form_step_count ctx = 3%nat.
Proof.
  assert (determine_step abc_wizard abc_filled = OK ("c", abc_filled)) as Hd
    by (vm_compute; reflexivity).
  assert (sd_keys (form_list abc_wizard) !! 2%nat = Some "c") as Hc
    by (vm_compute; reflexivity).
  split; [exact Hd|]. split; [exact Hc|].
  destruct (render_template_context FormWizard session_storage abc_entries
              (Some record_done) ∅ ∅ abc_wizard submit_c None abc_filled
              "c" abc_filled 2 abc_init Hd Hc (fun _ => eq_refl))
    as (ctx & fc & Hr & _ & _ & _ & Hs & _ & _ & Hp & Hn & H0 & H1 & Hcount).
  exists ctx. rewrite abc_keys in Hp, Hn, Hcount.
  repeat split; assumption.
Defined.

Lemma render_unconfigured_current_step_raises_stale :
  determine_step abc_wizard stale_state = OK ("zzz", stale_state) /\
  render abc_wizard submit_c form_c stale_state = Raise ValueError /\
  render_template abc_wizard submit_c None stale_state = Raise (KeyError "zzz").
Proof.
  assert (determine_step abc_wizard stale_state = OK ("zzz", stale_state)) as Hd
    by (vm_compute; reflexivity).
  assert ("zzz" ∉ sd_keys (form_list abc_wizard)) as Hz.
  { rewrite abc_keys. intros H. apply list_elem_of_In in H. simpl in H.
    destruct H as [H|[H|[H|H]]]; try discriminate H. exact H. }
  split; [exact Hd|].
  exact (render_unconfigured_current_step_raises FormWizard session_storage
           abc_entries (Some record_done) ∅ ∅ abc_wizard submit_c form_c
           stale_state "zzz" stale_state abc_init Hd Hz).
Defined.

Lemma render_next_step_advances_abc :
  determine_step abc_wizard abc_at_a = OK ("a", abc_at_a) /\
  exists ctx,
    render_next_step abc_wizard submit_a form_c abc_at_a
    = OK (TemplateResponse (get_template abc_wizard) ctx,
          at_step (Some "b") abc_at_a) /\
    form_data (ctx_form ctx) = Some {[ "b-y" := "2" ]} /\
    ctx_form_step ctx = "b".
Proof.
  assert (determine_step abc_wizard abc_at_a = OK ("a", abc_at_a)) as Hd
    by (vm_compute; reflexivity).
  assert (sd_keys (form_list abc_wizard) !! 0%nat = Some "a") as Ha
    by (vm_compute; reflexivity).
  assert (sd_keys (form_list abc_wizard) !! 1%nat = Some "b") as Hb
    by (vm_compute; reflexivity).
  assert ("b" <> "") as Hne by discriminate.
  split; [exact Hd|].
  destruct (render_next_step_advances FormWizard session_storage abc_entries
              (Some record_done) ∅ ∅ abc_wizard submit_a form_c abc_at_a
              "a" abc_at_a 0 "b" abc_init Hd Ha Hb eq_refl)
    as (fc & ctx & _ & Hr & Hform & Hstep).
  exists ctx. split; [exact Hr|]. split.
  - rewrite Hform. vm_compute. reflexivity.
  - exact (proj1 (Hstep Hne)).
Defined.

Lemma dispatch_by_stored_step_abc :
  method submit_a <> "GET" /\
  POST submit_a !! "form_prev_step" = None /\
  current_step (storage fresh_state) = None /\
  determine_step abc_wizard fresh_state = OK ("a", fresh_state) /\
  _process_request submit_a abc_wizard
    {[ "default" := echo_view; "a" := a_view ]} fresh_state
  = OK (HandlerResponse (PyStr "default view"), fresh_state) /\
  _process_request submit_a abc_wizard
    {[ "default" := echo_view; "a" := a_view ]} abc_at_a
  = OK (HandlerResponse (PyStr "view of a"), abc_at_a).
Proof.
  assert (method submit_a <> "GET") as Hm by discriminate.
  assert (POST submit_a !! "form_prev_step" = None) as Hp
    by (vm_compute; reflexivity).
  assert (({[ "default" := echo_view; "a" := a_view ]} : gmap string StepView)
            !! "default" = Some echo_view) as Hdef by (vm_compute; reflexivity).
  assert (({[ "default" := echo_view; "a" := a_view ]} : gmap string StepView)
            !! "a" = Some a_view) as Ha by (vm_compute; reflexivity).
  split; [exact Hm|]. split; [exact Hp|]. split; [reflexivity|].
  split; [vm_compute; reflexivity|]. split.
  - rewrite (proj1 (proj2 (dispatch_by_stored_step FormWizard session_storage
                             abc_entries (Some record_done) ∅ ∅ abc_wizard
                             submit_a _ fresh_state echo_view
                             abc_init Hm Hp Hdef) eq_refl)).
    reflexivity.
  - rewrite (proj1 (dispatch_by_stored_step FormWizard session_storage
                      abc_entries (Some record_done) ∅ ∅ abc_wizard
                      submit_a _ abc_at_a echo_view
                      abc_init Hm Hp Hdef) "a" a_view eq_refl Ha).
    reflexivity.
Defined.

Lemma get_form_builds_step_form_abc :
  sd_getitem (form_list abc_wizard) "b" = OK (required_text_form "y") /\
  (exists f,
     get_form abc_wizard (Some "b") (Some {[ "b-y" := "2" ]}) fresh_state
     = OK (f, fresh_state) /\
     form_prefix f = "b" /\
     form_initial f = ∅ /\
     form_instance f = None) /\
  sd_has_key (form_list cafe_wizard) cafe = true /\
  is_ascii cafe = false /\
  get_form cafe_wizard (Some cafe) None fresh_state = Raise UnicodeEncodeError.
Proof.
  assert (sd_getitem (form_list abc_wizard) "b" = OK (required_text_form "y"))
    as Hb by (vm_compute; reflexivity).
  assert (sd_has_key (form_list cafe_wizard) cafe = true) as Hc
    by (vm_compute; reflexivity).
  assert (is_ascii cafe = false) as Hn by (vm_compute; reflexivity).
  split; [exact Hb|]. split.
  - destruct (proj2 (proj2 (get_form_builds_step_form abc_wizard "b"
                              (Some {[ "b-y" := "2" ]}) fresh_state))
                (required_text_form "y") Hb eq_refl)
      as (f & Hf & _ & _ & Hp & Hi & Hinst & _).
    exists f. repeat split; assumption.
  - split; [exact Hc|]. split; [exact Hn|].
    exact (proj1 (proj2 (get_form_builds_step_form cafe_wizard cafe None
                           fresh_state)) Hc Hn).
Defined.

Lemma render_done_without_handler_raises_abc :
  FormWizard_init FormWizard session_storage abc_entries None ∅ ∅
  = OK abc_plain_wizard /\
  render_done abc_plain_wizard submit_c form_c abc_filled
  = Raise NotImplementedError.
Proof.
  split; [reflexivity|].
  apply (render_done_without_handler_raises FormWizard session_storage
           abc_entries ∅ ∅ abc_plain_wizard submit_c form_c abc_filled
           (or_introl eq_refl) eq_refl).
  intros k Hk. change (sd_keys (form_list abc_plain_wizard))
    with (sd_keys (form_list abc_wizard)) in Hk. rewrite abc_keys in Hk.
  apply list_elem_of_In in Hk. simpl in Hk.
  destruct Hk as [<-|[<-|[<-|[]]]]; eexists; vm_compute; reflexivity.
Defined.

Lemma render_done_failure_then_current_step_abc :
  sd_keys (form_list abc_wizard) = [] ++ "a" :: ["b"; "c"] /\
  get_cleaned_data_for_step abc_wizard "a" abc_tampered
  = OK (None, abc_tampered) /\
  (render_done abc_wizard submit_c form_c ;;; determine_step abc_wizard)
    abc_tampered
  = OK ("a", at_step (Some "a") abc_tampered).
Proof.
  assert (get_cleaned_data_for_step abc_wizard "a" abc_tampered
          = OK (None, abc_tampered)) as Ha by (vm_compute; reflexivity).
  assert ("a" <> "") as Hne by discriminate.
  split; [exact abc_keys|]. split; [exact Ha|].
  apply (render_done_failure_then_current_step FormWizard session_storage
           abc_entries (Some record_done) ∅ ∅ abc_wizard submit_c form_c
           abc_tampered [] "a" ["b"; "c"] abc_init abc_keys); [|exact Ha|exact Hne].
  intros k' Hk'. destruct (not_elem_of_nil k' Hk').
Defined.

Lemma forward_then_back_abc :
  current_step (storage abc_at_a) = Some "a" /\
  POST back_to_a !! "form_prev_step" = Some "a" /\
  exists ctx,
    (render_next_step abc_wizard submit_a form_c ;;;
     render_backward abc_wizard back_to_a) abc_at_a
    = OK (TemplateResponse (get_template abc_wizard) ctx, abc_at_a) /\
    ctx_form_step ctx = "a".
Proof.
  assert ("a" <> "") as Hne by discriminate.
  assert (sd_keys (form_list abc_wizard) !! 0%nat = Some "a") as Ha
    by (vm_compute; reflexivity).
  assert (sd_keys (form_list abc_wizard) !! 1%nat = Some "b") as Hb
    by (vm_compute; reflexivity).
  split; [reflexivity|]. split; [reflexivity|].
  destruct (forward_then_back FormWizard session_storage abc_entries
              (Some record_done) ∅ ∅ abc_wizard submit_a back_to_a form_c
              abc_at_a "a" 0 "b" abc_init eq_refl Hne Ha Hb eq_refl eq_refl
              eq_refl)
    as (fc & ctx & _ & Hr & _ & Hstep).
  exists ctx. split; [exact Hr|exact Hstep].
Defined.

Lemma render_backward_unguarded_abc :
  POST submit_a !! "form_prev_step" = None /\
  render_backward abc_wizard submit_a abc_at_a
  = Raise (KeyError "form_prev_step") /\
  sd_has_key (form_list abc_wizard) "zzz" = false /\
  render_backward abc_wizard back_to_nowhere abc_at_a = Raise (KeyError "zzz").
Proof.
  assert (POST submit_a !! "form_prev_step" = None) as Hp
    by (vm_compute; reflexivity).
  assert (sd_has_key (form_list abc_wizard) "zzz" = false) as Hz
    by (vm_compute; reflexivity).
  assert ("zzz" <> "") as Hne by discriminate.
  split; [exact Hp|]. split.
  - exact (proj1 (render_backward_unguarded abc_wizard submit_a abc_at_a) Hp).
  - split; [exact Hz|].
    exact (proj2 (render_backward_unguarded abc_wizard back_to_nowhere abc_at_a)
             "zzz" eq_refl Hne Hz).
Defined.

Lemma navigation_keeps_stored_data_abc :
  exists r st',
    render_next_step abc_wizard submit_a form_c abc_at_a = OK (r, st') /\
    exists c, st' = at_step c abc_at_a.
Proof.
  destruct (render_next_step abc_wizard submit_a form_c abc_at_a)
    as [[r st']|e] eqn:Hr.
  - exists r, st'. split; [reflexivity|].
    exact (proj1 (proj2 (proj2 (navigation_keeps_stored_data abc_wizard
                                  submit_a form_c abc_at_a st' r))) Hr).
  - exfalso. vm_compute in Hr. discriminate Hr.
Defined.

Lemma cleaned_data_for_step_revalidates_cafe :
  sd_has_key (form_list cafe_wizard) "zzz" = false /\
  get_cleaned_data_for_step cafe_wizard "zzz" cafe_filled
  = OK (None, cafe_filled) /\
  sd_has_key (form_list cafe_wizard) cafe = true /\
  is_ascii cafe = false /\
  get_cleaned_data_for_step cafe_wizard cafe cafe_filled
  = Raise UnicodeEncodeError /\
  get_cleaned_data_for_step cafe_wizard "a" cafe_filled
  = OK (Some (CleanedDict {[ "x" := PyStr "1" ]}), cafe_filled).
Proof.
  assert (sd_has_key (form_list cafe_wizard) "zzz" = false) as Hz
    by (vm_compute; reflexivity).
  assert (sd_has_key (form_list cafe_wizard) cafe = true) as Hc
    by (vm_compute; reflexivity).
  assert (is_ascii cafe = false) as Hn by (vm_compute; reflexivity).
  assert (sd_getitem (form_list cafe_wizard) "a" = OK (required_text_form "x"))
    as Ha by (vm_compute; reflexivity).
  split; [exact Hz|]. split.
  - exact (proj1 (cleaned_data_for_step_revalidates cafe_wizard "zzz"
                    cafe_filled) Hz).
  - split; [exact Hc|]. split; [exact Hn|]. split.
    + exact (proj1 (proj2 (cleaned_data_for_step_revalidates cafe_wizard cafe
                             cafe_filled)) Hc Hn).
    + rewrite (proj2 (proj2 (cleaned_data_for_step_revalidates cafe_wizard "a"
                               cafe_filled)) (required_text_form "x") Ha eq_refl).
      vm_compute. reflexivity.
Defined.
